(** * cnLab: the Internet checksum and the ICMP/IP header exercises

    A shallow embedding of the four C programs of the repository

      - [assignment_10/icmpTimestamp.c]  (ICMP timestamp request),
      - [assignment_12/icmp_flood.c]     (IP + ICMP echo datagram, send loop),
      - [assignment_13/analyzer.c]       (capture dissector with ICMP subtypes),
      - [assignment_13/parser.c]         (capture dissector, layer chain only),

    and the properties that the design document states about them.

    Conventions of the model.

      - Memory is a [list byte]; a C pointer into a buffer is an offset.
      - The host is little-endian with the LP64 data model (Linux on x86-64,
        the platform of [struct iphdr] / [struct icmphdr]): a native 16-bit
        load of the bytes [b0; b1] is [b0 + 256 * b1], [long] has 64 bits,
        and [htons]/[htonl] swap bytes.
      - C integers are [Z]; every narrowing conversion is written out.
      - Constants and structure layouts of the system headers
        ([<netinet/ip.h>], [<netinet/ip_icmp.h>], [<net/ethernet.h>]) are
        given as definitions next to the program that uses them. *)

From Stdlib Require Import ZArith List Lia Bool.
From Stdlib Require Import Strings.Byte.
Import ListNotations.

Local Open Scope Z_scope.

(** * Part I: the programs *)

(** ** Bytes and native loads and stores *)

Module Mem.

(** The value of a byte, [0..255]. *)
Definition byte_val (b : byte) : Z := Z.of_N (Byte.to_N b).

(** Conversion of an integer to [u_char] (reduction modulo 256). *)
Definition to_u8 (z : Z) : byte :=
  match Byte.of_N (Z.to_N (z mod 256)) with
  | Some b => b
  | None => x00
  end.

(** Conversions to the fixed-width integer types. *)
Definition to_u16 (z : Z) : Z := z mod 65536.
Definition to_u32 (z : Z) : Z := z mod 4294967296.
Definition to_s16 (z : Z) : Z := (z + 32768) mod 65536 - 32768.

(** [*(unsigned short * )p] for the two bytes at [p] on the
    little-endian host. *)
Definition word16 (b0 b1 : byte) : Z := byte_val b0 + 256 * byte_val b1.

(** The bytes that a native 16-bit store of [v] leaves in memory. *)
Definition bytes_of_u16 (v : Z) : list byte :=
  [to_u8 v; to_u8 (v / 256)].

(** The bytes that a native 32-bit store of [v] leaves in memory. *)
Definition bytes_of_u32 (v : Z) : list byte :=
  [to_u8 v; to_u8 (v / 256); to_u8 (v / 65536); to_u8 (v / 16777216)].

(** [htons] and [htonl] on the little-endian host. *)
Definition htons (v : Z) : Z :=
  let v := to_u16 v in (v mod 256) * 256 + v / 256.

Definition htonl (v : Z) : Z :=
  let v := to_u32 v in
  (v mod 256) * 16777216 + (v / 256 mod 256) * 65536
  + (v / 65536 mod 256) * 256 + v / 16777216.

(** [ntohs] is the same byte swap. *)
Definition ntohs (v : Z) : Z := htons v.

(** A multi-byte field read the way the wire defines it (most
    significant byte first). *)
Fixpoint be_value (bs : list byte) (acc : Z) : Z :=
  match bs with
  | [] => acc
  | b :: rest => be_value rest (acc * 256 + byte_val b)
  end.

(** Writing the bytes [src] into [buf] from offset [off] on; bytes that
    would fall behind the end of [buf] are dropped, the length of [buf]
    never changes. *)
Fixpoint write_at (off : nat) (src buf : list byte) : list byte :=
  match buf with
  | [] => []
  | b :: rest =>
      match off with
      | S off' => b :: write_at off' src rest
      | O =>
          match src with
          | [] => buf
          | s :: src' => s :: write_at O src' rest
          end
      end
  end.

(** The [n] bytes of [buf] from offset [off] on. *)
Definition slice (off n : nat) (buf : list byte) : list byte :=
  firstn n (skipn off buf).

Definition store8 (off : nat) (v : Z) (buf : list byte) : list byte :=
  write_at off [to_u8 v] buf.

Definition store16 (off : nat) (v : Z) (buf : list byte) : list byte :=
  write_at off (bytes_of_u16 v) buf.

Definition store32 (off : nat) (v : Z) (buf : list byte) : list byte :=
  write_at off (bytes_of_u32 v) buf.

Definition load8 (off : nat) (buf : list byte) : Z :=
  byte_val (nth off buf x00).

Definition load16 (off : nat) (buf : list byte) : Z :=
  word16 (nth off buf x00) (nth (S off) buf x00).

Definition load32 (off : nat) (buf : list byte) : Z :=
  load16 off buf + 65536 * load16 (S (S off)) buf.

(** A 16-bit field read the way the wire defines it. *)
Definition wire16 (off : nat) (buf : list byte) : Z :=
  be_value [nth off buf x00; nth (S off) buf x00] 0.

End Mem.

(** ** The checksum routine

    [checksum] of [icmpTimestamp.c] and [csum] of [icmp_flood.c] are the
    same function, character for character, under two names. *)

Module Checksum.
Import Mem.

(** The summation loop together with the odd-byte step that follows it.

<<
    while (nbytes > 1) { sum += *ptr++; nbytes -= 2; }
    if (nbytes == 1) {
        oddbyte = 0;
        *((u_char * )&oddbyte) = *(u_char * )ptr;
        sum += oddbyte;
    }
>>
    The argument is the byte range [ptr .. ptr + nbytes); [sum] is the
    accumulator.  On the little-endian host the first byte of [oddbyte]
    is its low byte. *)
Fixpoint sum_loop (bs : list byte) (sum : Z) : Z :=
  match bs with
  | b0 :: b1 :: rest => sum_loop rest (sum + word16 b0 b1)
  | [b] => sum + word16 b x00
  | [] => sum
  end.

(** The two folding statements
    [sum = (sum >> 16) + (sum & 0xffff); sum = sum + (sum >> 16);]. *)
Definition fold_twice (sum : Z) : Z :=
  let sum := Z.shiftr sum 16 + Z.land sum 65535 in
  sum + Z.shiftr sum 16.

(** [answer = (short)~sum; return (answer);] with return type
    [unsigned short]. *)
Definition checksum (bs : list byte) : Z :=
  let sum := sum_loop bs 0 in
  let sum := fold_twice sum in
  let answer := to_s16 (Z.lnot sum) in
  to_u16 answer.

(** The name used in [icmp_flood.c]. *)
Definition csum : list byte -> Z := checksum.

End Checksum.

(** ** The Internet checksum as the design document words it *)

Module ChecksumSpec.
Import Mem.

(** The input read as consecutive 16-bit native-order words; the final
    byte of an odd-length input is the low byte of a zero-padded word. *)
Fixpoint words_of (bs : list byte) : list Z :=
  match bs with
  | b0 :: b1 :: rest => (byte_val b0 + 256 * byte_val b1) :: words_of rest
  | [b] => [byte_val b]
  | [] => []
  end.

Definition total (ws : list Z) : Z := fold_right Z.add 0 ws.

(** Carries above 16 bits are folded back into the low 16 bits, until
    no carry remains.  One step adds the overflow to the low 16 bits;
    a step at least halves a sum that still carries, so [Z.log2 s]
    steps always suffice ([fold_steps_closed] below). *)
Fixpoint fold_steps (fuel : nat) (s : Z) : Z :=
  match fuel with
  | O => s
  | S fuel' =>
      if s <? 65536 then s
      else fold_steps fuel' (s / 65536 + s mod 65536)
  end.

Definition fold_carries (s : Z) : Z :=
  fold_steps (Z.to_nat (Z.log2 s)) s.

(** The one's complement of a 16-bit quantity. *)
Definition not16 (v : Z) : Z := Z.lnot v mod 65536.

Definition internet_checksum (bs : list byte) : Z :=
  not16 (fold_carries (total (words_of bs))).

(** Filling in a checksum field: the checksum of the buffer with the
    16-bit field at offset [off] zeroed is written into that field
    (as both programs do: [x->checksum = 0; x->checksum = checksum(...)]);
    every other byte is left as it is. *)
Definition checksum_apply (off : nat) (B : list byte) : list byte :=
  store16 off (Checksum.checksum (store16 off 0 B)) B.

(** A range of 131078 bytes: 65538 words [0xffff] and one word
    [0x0001].  Its word sum is [0x1_0000_ffff]. *)
Definition long_range : list byte :=
  repeat xff (N.to_nat 131076) ++ [x01; x00].

(** The same range behind a leading (zero) checksum field. *)
Definition long_buffer : list byte := [x00; x00] ++ long_range.

End ChecksumSpec.

(** ** [icmpTimestamp.c]: the ICMP timestamp request *)

Module IcmpTimestamp.
Import Mem.

(** [struct icmp_timestamp]: [type] at offset 0, [code] 1, [checksum] 2,
    [id] 4, [sequence] 6, [originate_timestamp] 8, [receive_timestamp]
    12, [transmit_timestamp] 16; 20 bytes, no padding. *)
Definition sizeof_icmp_timestamp : nat := 20.

(** [uint32_t milliseconds =
       (tv.tv_sec % 86400) * 1000 + (tv.tv_usec / 1000);]
    [%] and [/] of C truncate towards zero; the result is converted to
    32 bits. *)
Definition milliseconds (tv_sec tv_usec : Z) : Z :=
  to_u32 (Z.rem tv_sec 86400 * 1000 + Z.quot tv_usec 1000).

(** The assignments of [main] up to the checksum.  [packet] is the
    (uninitialised) array the header is laid over, [pid] the value of
    [getpid()], [tv_sec] and [tv_usec] the result of [gettimeofday]. *)
Definition set_fields (packet : list byte) (pid tv_sec tv_usec : Z)
  : list byte :=
  let p := store8 0 13 packet in
  let p := store8 1 0 p in
  let p := store16 2 0 p in
  let p := store16 4 pid p in
  let p := store16 6 1 p in
  let p := store32 8 (htonl (milliseconds tv_sec tv_usec)) p in
  let p := store32 12 0 p in
  store32 16 0 p.

(** [icmp->checksum = checksum((unsigned short * )icmp,
                               sizeof(struct icmp_timestamp));] *)
Definition timestamp_request (packet : list byte) (pid tv_sec tv_usec : Z)
  : list byte :=
  let p := set_fields packet pid tv_sec tv_usec in
  store16 2 (Checksum.checksum (slice 0 sizeof_icmp_timestamp p)) p.

End IcmpTimestamp.

(** ** [icmp_flood.c]: the IP + ICMP echo datagram and its send loop *)

Module IcmpFlood.
Import Mem.

(** [struct iphdr]: [ihl] (low nibble) and [version] (high nibble) in
    byte 0, [tos] 1, [tot_len] 2, [id] 4, [frag_off] 6, [ttl] 8,
    [protocol] 9, [check] 10, [saddr] 12, [daddr] 16; 20 bytes.
    [struct icmphdr], laid at offset 20: [type] 20, [code] 21,
    [checksum] 22, [un.echo.id] 24, [un.echo.sequence] 26; 8 bytes. *)
Definition sizeof_iphdr : nat := 20.
Definition sizeof_icmphdr : nat := 8.
Definition IPPROTO_ICMP : Z := 1.
Definition ICMP_ECHO : Z := 8.

(** [inet_addr] of the dotted quad [a.b.c.d]: the address in network
    byte order, as the little-endian host sees the 32-bit value. *)
Definition inet_addr (q : Z * Z * Z * Z) : Z :=
  let '(a, b, c, d) := q in a + 256 * b + 65536 * c + 16777216 * d.

Definition spoofed_ips : list (Z * Z * Z * Z) :=
  [(10, 0, 0, 3); (10, 0, 0, 4); (10, 0, 0, 5); (10, 0, 0, 6)].

(** The two bit-fields of byte 0. *)
Definition set_ihl (v : Z) (d : list byte) : list byte :=
  store8 0 (Z.lor (Z.land (load8 0 d) 240) (Z.land v 15)) d.

Definition set_version (v : Z) (d : list byte) : list byte :=
  store8 0 (Z.lor (Z.land (load8 0 d) 15) (Z.shiftl (Z.land v 15) 4)) d.

(** [memset(datagram, 0, 4096)] and the header configuration that
    precedes the loop.  [target] is [inet_addr(target_ip)], [pid] the
    value of [getpid()]. *)
Definition configure (target pid : Z) : list byte :=
  let d := repeat x00 4096 in
  let d := set_ihl 5 d in
  let d := set_version 4 d in
  let d := store8 1 0 d in
  let d := store16 2 (Z.of_nat sizeof_iphdr + Z.of_nat sizeof_icmphdr) d in
  let d := store16 4 (htons 12345) d in
  let d := store16 6 0 d in
  let d := store8 8 255 d in
  let d := store8 9 IPPROTO_ICMP d in
  let d := store16 10 0 d in
  let d := store32 16 target d in
  let d := store8 20 ICMP_ECHO d in
  let d := store8 21 0 d in
  let d := store16 24 (htons pid) d in
  let d := store16 26 0 d in
  store16 22 0 d.

(** The first half of a turn of [while (1)]: source address, sequence
    number and ICMP checksum.  [r1] and [r2] are the values of the two
    calls of [rand()]. *)
Definition icmp_turn (r1 r2 : N) (d : list byte) : list byte :=
  let chosen_src :=
    nth (N.to_nat (r1 mod 4)) spoofed_ips (0, 0, 0, 0) in
  let d := store32 12 (inet_addr chosen_src) d in
  let d := store16 26 (htons (Z.of_N (r2 mod 65535))) d in
  let d := store16 22 0 d in
  store16 22 (Checksum.csum (slice 20 sizeof_icmphdr d)) d.

(** The [nbytes] argument of the second [csum] call, [iph->tot_len]. *)
Definition ip_csum_nbytes (d : list byte) : nat := Z.to_nat (load16 2 d).

(** The second half: [iph->check = 0;
    iph->check = csum((unsigned short * )datagram, iph->tot_len);] *)
Definition ip_check_turn (d : list byte) : list byte :=
  let d := store16 10 0 d in
  store16 10 (Checksum.csum (slice 0 (ip_csum_nbytes d) d)) d.

(** One turn of the loop. *)
Definition iteration (r1 r2 : N) (d : list byte) : list byte :=
  ip_check_turn (icmp_turn r1 r2 d).

(** What [sendto(s, datagram, iph->tot_len, ...)] hands to the socket. *)
Definition sent (d : list byte) : list byte :=
  slice 0 (Z.to_nat (load16 2 d)) d.

(** The contents of [datagram] at the head of the loop: as configured,
    or after one more turn. *)
Inductive reachable (target pid : Z) : list byte -> Prop :=
| configured : reachable target pid (configure target pid)
| turn (r1 r2 : N) (d : list byte) :
    reachable target pid d -> reachable target pid (iteration r1 r2 d).

(** The offsets that the loop body assigns: [check] (10, 11), [saddr]
    (12 .. 15), the ICMP [checksum] (22, 23) and [un.echo.sequence]
    (26, 27). *)
Definition assigned_in_loop (i : nat) : bool :=
  ((10 <=? i) && (i <? 16) || (22 <=? i) && (i <? 24)
   || (26 <=? i) && (i <? 28))%nat.

(** The header fields as the structure members read them. *)
Definition ip_version (d : list byte) : Z := Z.shiftr (load8 0 d) 4.
Definition ip_ihl (d : list byte) : Z := Z.land (load8 0 d) 15.
Definition ip_tos (d : list byte) : Z := load8 1 d.
Definition ip_tot_len (d : list byte) : Z := load16 2 d.
Definition ip_id (d : list byte) : Z := load16 4 d.
Definition ip_frag_off (d : list byte) : Z := load16 6 d.
Definition ip_ttl (d : list byte) : Z := load8 8 d.
Definition ip_protocol (d : list byte) : Z := load8 9 d.
Definition ip_check (d : list byte) : Z := load16 10 d.
Definition ip_daddr (d : list byte) : Z := load32 16 d.
Definition icmp_type (d : list byte) : Z := load8 20 d.
Definition icmp_code (d : list byte) : Z := load8 21 d.
Definition icmp_checksum (d : list byte) : Z := load16 22 d.
Definition icmp_echo_id (d : list byte) : Z := load16 24 d.

(** One concrete run: target 10.0.0.1, process id 1000, first turn of
    the loop with [rand()] returning 6 and then 7.  [sample_at_ip_csum]
    is the datagram at the moment of the second [csum] call,
    [sample_datagram] the datagram at the end of the turn. *)
Definition sample_configured : list byte :=
  configure (inet_addr (10, 0, 0, 1)) 1000.

Definition sample_at_ip_csum : list byte :=
  store16 10 0 (icmp_turn 6 7 sample_configured).

Definition sample_datagram : list byte := iteration 6 7 sample_configured.

End IcmpFlood.

(** ** Reading a captured frame *)

Module Capture.
Import Mem.

(** [struct pcap_pkthdr] as far as the handlers use it: the capture
    timestamp.  The handlers never consult [caplen] or [len]; the
    [packet] they receive is modelled by the list of the captured
    bytes, so the captured length is the length of that list. *)
Record timeval : Type := { tv_sec : Z; tv_usec : Z }.

(** The result of code that dereferences the frame pointer: either it
    ran to its end, or it read the byte at [off], which lies behind the
    captured bytes (the behaviour of the C program is then undefined). *)
Inductive outcome (A : Type) : Type :=
| Returned (a : A)
| ReadPast (off : nat).
Arguments Returned {A} a.
Arguments ReadPast {A} off.

Definition bind {A B : Type} (c : outcome A) (k : A -> outcome B)
  : outcome B :=
  match c with
  | Returned a => k a
  | ReadPast off => ReadPast off
  end.

Notation "x <- c ;; k" := (bind c (fun x => k))
  (at level 61, c at next level, right associativity).

Definition read8 (packet : list byte) (off : nat) : outcome Z :=
  match nth_error packet off with
  | Some b => Returned (byte_val b)
  | None => ReadPast off
  end.

(** A native 16-bit load. *)
Definition read16 (packet : list byte) (off : nat) : outcome Z :=
  b0 <- read8 packet off ;;
  b1 <- read8 packet (S off) ;;
  Returned (b0 + 256 * b1).

(** [<net/ethernet.h>], [<netinet/in.h>], [<netinet/ip_icmp.h>]. *)
Definition sizeof_ether_header : nat := 14.
Definition ETHERTYPE_IP : Z := 2048.
Definition ETHERTYPE_ARP : Z := 2054.
Definition IPPROTO_ICMP : Z := 1.
Definition IPPROTO_TCP : Z := 6.
Definition IPPROTO_UDP : Z := 17.
Definition ICMP_ECHO : Z := 8.
Definition ICMP_ECHOREPLY : Z := 0.

(** Field offsets: [ether_type] in [struct ether_header]; [ip_hl] (the
    low nibble of byte 0) and [ip_p] in [struct ip]. *)
Definition off_ether_type : nat := 12.
Definition off_ip_p : nat := 9.

End Capture.

(** ** [analyzer.c] *)

Module Analyzer.
Import Mem Capture.

(** The lines that [packet_handler] prints after the time stamp. *)
Inductive line : Type :=
| ICMP_Echo_Request          (* "ICMP Echo Request (Ping)" *)
| ICMP_Echo_Reply            (* "ICMP Echo Reply (Pong)" *)
| ICMP_Type (t : Z)          (* "ICMP Type: %d" *)
| TCP_Segment                (* "TCP Segment" *)
| UDP_Datagram               (* "UDP Datagram" *)
| Other_IP_Protocol (p : Z)  (* "Other IP Protocol (%d)" *)
| ARP_Packet                 (* "ARP Packet" *)
| Unknown_L2_Protocol.       (* "Unknown L2 Protocol" *)

(** [static long start_sec = 0; static long start_usec = 0;] *)
Record statics : Type := { start_sec : Z; start_usec : Z }.

Definition initial : statics := {| start_sec := 0; start_usec := 0 |}.

(** [if (start_sec == 0) { start_sec = ...; start_usec = ...; }] *)
Definition set_baseline (st : statics) (ts : timeval) : statics :=
  if start_sec st =? 0
  then {| start_sec := tv_sec ts; start_usec := tv_usec ts |}
  else st.

(** [relative_time], in microseconds: the program prints
    [(tv_sec - start_sec) + (tv_usec - start_usec) / 1000000.0]. *)
Definition relative_time (st : statics) (ts : timeval) : Z :=
  (tv_sec ts - start_sec st) * 1000000 + (tv_usec ts - start_usec st).

(** The protocol dispatch of [packet_handler]. *)
Definition dissect (packet : list byte) : outcome line :=
  ether_type <- read16 packet off_ether_type ;;
  if ntohs ether_type =? ETHERTYPE_IP then
    ip_p <- read8 packet (sizeof_ether_header + off_ip_p) ;;
    if ip_p =? IPPROTO_ICMP then
      vhl <- read8 packet sizeof_ether_header ;;
      let ip_hl := Z.land vhl 15 in
      icmp_type <-
        read8 packet (sizeof_ether_header + Z.to_nat (Z.shiftl ip_hl 2)) ;;
      if icmp_type =? ICMP_ECHO then Returned ICMP_Echo_Request
      else if icmp_type =? ICMP_ECHOREPLY then Returned ICMP_Echo_Reply
      else Returned (ICMP_Type icmp_type)
    else if ip_p =? IPPROTO_TCP then Returned TCP_Segment
    else if ip_p =? IPPROTO_UDP then Returned UDP_Datagram
    else Returned (Other_IP_Protocol ip_p)
  else if ntohs ether_type =? ETHERTYPE_ARP then Returned ARP_Packet
  else Returned Unknown_L2_Protocol.

(** One call of [packet_handler]: the statics it leaves, the relative
    time it prints and the outcome of the dispatch. *)
Record handled : Type :=
  { statics_after : statics; time_printed : Z; printed : outcome line }.

Definition packet_handler (st : statics) (ts : timeval)
  (packet : list byte) : handled :=
  let st := set_baseline st ts in
  {| statics_after := st;
     time_printed := relative_time st ts;
     printed := dissect packet |}.

(** [pcap_loop]: the handler called on the frames of the capture, in
    order; the result is the statics after the last frame. *)
Definition pcap_loop (st : statics) (frames : list (timeval * list byte))
  : statics :=
  fold_left
    (fun st frame => statics_after (packet_handler st (fst frame) (snd frame)))
    frames st.

End Analyzer.

(** ** [parser.c] *)

Module Parser.
Import Mem Capture.

(** What [packet_handler] prints after the time stamp, if anything. *)
Inductive line : Type :=
| ICMP_Packet_Detected
| TCP_Packet_Detected
| UDP_Packet_Detected
| ARP_Packet_Detected
| Nothing.

(** [static long start_sec = 0;] *)
Definition set_baseline (start_sec : Z) (ts : timeval) : Z :=
  if start_sec =? 0 then tv_sec ts else start_sec.

(** [timestamp], in microseconds: the program prints
    [(tv_sec - start_sec) + (tv_usec / 1000000.0)]. *)
Definition timestamp (start_sec : Z) (ts : timeval) : Z :=
  (tv_sec ts - start_sec) * 1000000 + tv_usec ts.

Definition dissect (packet : list byte) : outcome line :=
  ether_type <- read16 packet off_ether_type ;;
  if ntohs ether_type =? ETHERTYPE_IP then
    ip_p <- read8 packet (sizeof_ether_header + off_ip_p) ;;
    if ip_p =? IPPROTO_ICMP then Returned ICMP_Packet_Detected
    else if ip_p =? IPPROTO_TCP then Returned TCP_Packet_Detected
    else if ip_p =? IPPROTO_UDP then Returned UDP_Packet_Detected
    else Returned Nothing
  else if ntohs ether_type =? ETHERTYPE_ARP then Returned ARP_Packet_Detected
  else Returned Nothing.

Record handled : Type :=
  { statics_after : Z; time_printed : Z; printed : outcome line }.

Definition packet_handler (start_sec : Z) (ts : timeval)
  (packet : list byte) : handled :=
  let start_sec := set_baseline start_sec ts in
  {| statics_after := start_sec;
     time_printed := timestamp start_sec ts;
     printed := dissect packet |}.

End Parser.

(** ** The dissection as the design document words it *)

Module DissectSpec.
Import Mem Capture.

(** The header fields of a captured frame at their offsets. *)
Definition ether_type (packet : list byte) : Z := wire16 12 packet.
Definition ip_protocol (packet : list byte) : Z := load8 23 packet.
Definition ip_header_words (packet : list byte) : Z :=
  Z.land (load8 14 packet) 15.
Definition icmp_type (packet : list byte) : Z :=
  load8 (14 + Z.to_nat (4 * ip_header_words packet)) packet.

(** The classifications of an IPv4 frame. *)
Inductive classification : Type :=
| EchoRequest
| EchoReply
| TimestampRequest
| OtherICMP (type_code : Z)
| TCP
| UDP
| OtherIP (protocol_number : Z).

(** Step 4: type 8, type 0, type 13, any other value. *)
Definition classify_icmp (type : Z) : classification :=
  if type =? 8 then EchoRequest
  else if type =? 0 then EchoReply
  else if type =? 13 then TimestampRequest
  else OtherICMP type.

(** Step 3: ICMP, TCP, UDP, other. *)
Definition dispatch (protocol type : Z) : classification :=
  if protocol =? IPPROTO_ICMP then classify_icmp type
  else if protocol =? IPPROTO_TCP then TCP
  else if protocol =? IPPROTO_UDP then UDP
  else OtherIP protocol.

(** The classification that a printed line of [analyzer.c] stands for;
    the two lines for frames that are not IPv4 stand for none. *)
Definition meaning (l : Analyzer.line) : option classification :=
  match l with
  | Analyzer.ICMP_Echo_Request => Some EchoRequest
  | Analyzer.ICMP_Echo_Reply => Some EchoReply
  | Analyzer.ICMP_Type t => Some (OtherICMP t)
  | Analyzer.TCP_Segment => Some TCP
  | Analyzer.UDP_Datagram => Some UDP
  | Analyzer.Other_IP_Protocol p => Some (OtherIP p)
  | Analyzer.ARP_Packet => None
  | Analyzer.Unknown_L2_Protocol => None
  end.

(** The frames on which [analyzer.c] fetches a byte that lies behind
    the captured bytes: fewer than 14 bytes; an IPv4 frame of fewer
    than 24 bytes (protocol byte at offset 23); an IPv4 frame carrying
    ICMP that ends before the type byte at offset [14 + 4 * IHL]. *)
Definition short_for_analyzer (packet : list byte) : bool :=
  let len := Z.of_nat (length packet) in
  (len <? 14)
  || (ether_type packet =? ETHERTYPE_IP)
     && ((len <? 24)
         || (ip_protocol packet =? IPPROTO_ICMP)
            && (len <? 15 + 4 * ip_header_words packet)).

(** The same for [parser.c], which stops at the protocol byte. *)
Definition short_for_parser (packet : list byte) : bool :=
  let len := Z.of_nat (length packet) in
  (len <? 14) || (ether_type packet =? ETHERTYPE_IP) && (len <? 24).

(** An Ethernet/IPv4 frame of 42 bytes carrying an ICMP timestamp
    request (type 13): 14 bytes of Ethernet header with EtherType
    [08 00], the 20-byte IP header [45 ..] with protocol 1, and the
    first 8 bytes of the ICMP message. *)
Definition timestamp_frame : list byte :=
  [x02; x00; x00; x00; x00; x01; x02; x00; x00; x00; x00; x02; x08; x00]
  ++ [x45; x00; x00; x28; x30; x39; x00; x00; x40; x01; x00; x00;
      x0a; x00; x00; x01; x0a; x00; x00; x02]
  ++ [x0d; x00; x00; x00; x12; x34; x00; x01].

End DissectSpec.

(** ** A capture session: [pcap_loop] with what the handlers print *)

Module Session.
Import Mem Capture.




(** The line of [parser.c] for the frame that [analyzer.c] describes by
    the line [l]. *)
Definition coarse (l : Analyzer.line) : Parser.line :=
  match l with
  | Analyzer.ICMP_Echo_Request => Parser.ICMP_Packet_Detected
  | Analyzer.ICMP_Echo_Reply => Parser.ICMP_Packet_Detected
  | Analyzer.ICMP_Type _ => Parser.ICMP_Packet_Detected
  | Analyzer.TCP_Segment => Parser.TCP_Packet_Detected
  | Analyzer.UDP_Datagram => Parser.UDP_Packet_Detected
  | Analyzer.Other_IP_Protocol _ => Parser.Nothing
  | Analyzer.ARP_Packet => Parser.ARP_Packet_Detected
  | Analyzer.Unknown_L2_Protocol => Parser.Nothing
  end.

(** An Ethernet frame carrying the IPv4 datagram [payload]: twelve bytes
    of addresses, the EtherType [08 00], the datagram. *)
Definition ethernet_ipv4 (addresses payload : list byte) : list byte :=
  addresses ++ [x08; x00] ++ payload.

End Session.

(** ** The lines and packets in closed form *)

Module Packets.
Import Mem Capture.

(** The line of [analyzer.c] as a function of the four header fields
    that its tests compare. *)
Definition analyzer_line_of (ether_type protocol icmp_type : Z)
  : Analyzer.line :=
  if ether_type =? ETHERTYPE_IP then
    if protocol =? IPPROTO_ICMP then
      if icmp_type =? ICMP_ECHO then Analyzer.ICMP_Echo_Request
      else if icmp_type =? ICMP_ECHOREPLY then Analyzer.ICMP_Echo_Reply
      else Analyzer.ICMP_Type icmp_type
    else if protocol =? IPPROTO_TCP then Analyzer.TCP_Segment
    else if protocol =? IPPROTO_UDP then Analyzer.UDP_Datagram
    else Analyzer.Other_IP_Protocol protocol
  else if ether_type =? ETHERTYPE_ARP then Analyzer.ARP_Packet
  else Analyzer.Unknown_L2_Protocol.

(** [inet_addr(spoofed_ips[rand() % 4])] and [htons(rand() % 65535)]
    for the values [r1] and [r2] of [rand()]. *)
Definition src_of (r1 : N) : Z :=
  IcmpFlood.inet_addr
    (nth (N.to_nat (r1 mod 4)) IcmpFlood.spoofed_ips (0, 0, 0, 0)).

Definition seq_of (r2 : N) : Z := htons (Z.of_N (r2 mod 65535)).

(** The two headers of the flood datagram with their checksum fields
    zero, and the datagram with both checksums filled in. *)
Definition ip_header (target : Z) (r1 : N) : list byte :=
  [x45; x00; x1c; x00; x30; x39; x00; x00; xff; x01; x00; x00]
  ++ bytes_of_u32 (src_of r1) ++ bytes_of_u32 target.

Definition icmp_header (pid : Z) (r2 : N) : list byte :=
  [x08; x00; x00; x00] ++ bytes_of_u16 (htons pid)
  ++ bytes_of_u16 (seq_of r2).

Definition echo_packet (target pid : Z) (r1 r2 : N) : list byte :=
  ChecksumSpec.checksum_apply 10 (ip_header target r1)
  ++ ChecksumSpec.checksum_apply 2 (icmp_header pid r2).

End Packets.

(** * Part II: properties *)

(** ** Memory *)

Module MemFacts.
Import Mem.

Lemma byte_val_range (b : byte) : 0 <= byte_val b <= 255.
Proof.
  unfold byte_val. pose proof (Byte.to_N_bounded b). lia.
Qed.

Lemma word16_range (b0 b1 : byte) : 0 <= word16 b0 b1 <= 65535.
Proof.
  unfold word16.
  pose proof (byte_val_range b0). pose proof (byte_val_range b1). lia.
Qed.

Lemma byte_val_to_u8 (z : Z) : byte_val (to_u8 z) = z mod 256.
Proof.
  unfold byte_val, to_u8.
  assert (Hr : 0 <= z mod 256 < 256) by (apply Z.mod_pos_bound; lia).
  destruct (Byte.of_N (Z.to_N (z mod 256))) as [b|] eqn:E.
  - apply Byte.to_of_N in E. rewrite E. lia.
  - apply Byte.of_N_None_iff in E. lia.
Qed.

Lemma to_u8_byte_val (b : byte) : to_u8 (byte_val b) = b.
Proof.
  unfold to_u8. pose proof (byte_val_range b).
  rewrite Z.mod_small by lia. unfold byte_val.
  rewrite N2Z.id, Byte.of_to_N. reflexivity.
Qed.

(** A native 16-bit store followed by a native load gives the value
    back, reduced to 16 bits. *)
Lemma word16_bytes_of_u16 (v : Z) :
  word16 (to_u8 v) (to_u8 (v / 256)) = v mod 65536.
Proof.
  unfold word16. rewrite !byte_val_to_u8.
  change 65536 with (256 * 256). rewrite Z.rem_mul_r by lia. reflexivity.
Qed.

Lemma write_at_nil (off : nat) (buf : list byte) : write_at off [] buf = buf.
Proof.
  revert off. induction buf as [|b rest IH]; intros [|off]; simpl;
    try reflexivity.
  rewrite IH. reflexivity.
Qed.

Lemma length_write_at (src : list byte) :
  forall off buf, length (write_at off src buf) = length buf.
Proof.
  induction src as [|s src IH].
  - intros. rewrite write_at_nil. reflexivity.
  - intros off buf. revert off.
    induction buf as [|b rest IHb]; intros [|off]; simpl; try reflexivity.
    + rewrite IH. reflexivity.
    + rewrite IHb. reflexivity.
Qed.

(** A write leaves every byte outside [off .. off + length src) alone. *)
Lemma nth_write_at_outside (src : list byte) :
  forall off buf i,
    (i < off \/ off + length src <= i)%nat ->
    nth i (write_at off src buf) x00 = nth i buf x00.
Proof.
  induction src as [|s src IH].
  - intros. rewrite write_at_nil. reflexivity.
  - intros off buf. revert off.
    induction buf as [|b rest IHb]; intros [|off] [|i] Hi; simpl in *;
      try reflexivity; try lia.
    + apply (IH O rest i). lia.
    + apply IHb. lia.
Qed.

(** Inside the written range the bytes are those of [src]. *)
Lemma nth_write_at_inside (src : list byte) :
  forall off buf i,
    (off + length src <= length buf)%nat ->
    (i < length src)%nat ->
    nth (off + i) (write_at off src buf) x00 = nth i src x00.
Proof.
  induction src as [|s src IH]; [simpl; lia|].
  intros off buf. revert off.
  induction buf as [|b rest IHb]; intros [|off] i Hlen Hi; simpl in *;
    try lia.
  - destruct i as [|i]; [reflexivity|].
    apply (IH O rest i); lia.
  - apply IHb; lia.
Qed.

(** The memory image of [htons v] and [htonl m] on the little-endian
    host, byte by byte. *)
Lemma htons_bytes (v : Z) :
  0 <= v < 65536 ->
  htons v mod 256 = v / 256 /\ (htons v / 256) mod 256 = v mod 256.
Proof.
  intro Hv. unfold htons, to_u16. rewrite (Z.mod_small v 65536) by lia.
  Z.div_mod_to_equations; lia.
Qed.

Lemma htonl_bytes (m : Z) :
  0 <= m < 4294967296 ->
  htonl m mod 256 = m / 16777216
  /\ (htonl m / 256) mod 256 = (m / 65536) mod 256
  /\ (htonl m / 65536) mod 256 = (m / 256) mod 256
  /\ (htonl m / 16777216) mod 256 = m mod 256.
Proof.
  intro Hm. unfold htonl, to_u32. rewrite (Z.mod_small m 4294967296) by lia.
  Z.div_mod_to_equations; lia.
Qed.

(** A 32-bit value stored after [htonl] reads back, most significant
    byte first, as the value itself. *)
Lemma be_value_htonl (m : Z) :
  0 <= m < 4294967296 ->
  be_value (bytes_of_u32 (htonl m)) 0 = m.
Proof.
  intro Hm. cbv [bytes_of_u32 be_value]. rewrite !byte_val_to_u8.
  destruct (htonl_bytes m Hm) as (-> & -> & -> & ->).
  Z.div_mod_to_equations; lia.
Qed.

Lemma be_value_htons (v : Z) :
  0 <= v < 65536 ->
  be_value (bytes_of_u16 (htons v)) 0 = v.
Proof.
  intro Hv. cbv [bytes_of_u16 be_value]. rewrite !byte_val_to_u8.
  destruct (htons_bytes v Hv) as (-> & ->).
  Z.div_mod_to_equations; lia.
Qed.

Lemma htons_range (v : Z) : 0 <= htons v < 65536.
Proof.
  unfold htons, to_u16.
  assert (0 <= v mod 65536 < 65536) by (apply Z.mod_pos_bound; lia).
  Z.div_mod_to_equations; lia.
Qed.

Lemma load32_bytes_of_u32 (v : Z) :
  word16 (to_u8 v) (to_u8 (v / 256))
  + 65536 * word16 (to_u8 (v / 65536)) (to_u8 (v / 16777216))
  = v mod 4294967296.
Proof.
  unfold word16. rewrite !byte_val_to_u8.
  Z.div_mod_to_equations; lia.
Qed.

End MemFacts.

(** ** The checksum routine *)

Module ChecksumFacts.
Import Mem Checksum ChecksumSpec MemFacts.

(** Induction over a byte range two bytes at a time, the way the
    summation loop consumes it. *)
Lemma pair_ind (P : list byte -> Prop) :
  P [] ->
  (forall b, P [b]) ->
  (forall b0 b1 rest, P rest -> P (b0 :: b1 :: rest)) ->
  forall bs, P bs.
Proof.
  intros Hnil Hone Hstep.
  assert (both : forall bs, P bs /\ forall b, P (b :: bs)).
  { induction bs as [|b bs [IH1 IH2]]; split; auto. }
  intro bs. apply both.
Qed.

Lemma sum_loop_acc (bs : list byte) :
  forall acc, sum_loop bs acc = acc + sum_loop bs 0.
Proof.
  induction bs as [|b|b0 b1 rest IH] using pair_ind; intro acc;
    cbn [sum_loop].
  - lia.
  - lia.
  - rewrite (IH (acc + _)), (IH (0 + _)). lia.
Qed.

Lemma sum_loop_total (bs : list byte) :
  sum_loop bs 0 = total (words_of bs).
Proof.
  induction bs as [|b|b0 b1 rest IH] using pair_ind;
    cbn [sum_loop words_of total fold_right].
  - reflexivity.
  - unfold word16. change (byte_val x00) with 0. lia.
  - rewrite sum_loop_acc, IH. unfold word16, total. lia.
Qed.

(** The sum never leaves the range of a 64-bit [long]: each 16-bit
    word adds at most [0xffff]. *)
Lemma sum_loop_bounds (bs : list byte) :
  0 <= sum_loop bs 0 <= 65535 * ((Z.of_nat (length bs) + 1) / 2).
Proof.
  induction bs as [|b|b0 b1 rest IH] using pair_ind.
  - simpl. lia.
  - pose proof (byte_val_range b). cbn [sum_loop length]. unfold word16.
    change (byte_val x00) with 0. change ((Z.of_nat 1 + 1) / 2) with 1. lia.
  - cbn [sum_loop length]. rewrite sum_loop_acc.
    pose proof (word16_range b0 b1).
    replace (Z.of_nat (S (S (length rest))) + 1)
      with (Z.of_nat (length rest) + 1 + 1 * 2) by lia.
    rewrite Z.div_add by lia. lia.
Qed.

Lemma sum_loop_fits_long (bs : list byte) :
  Z.of_nat (length bs) <= 2147483647 ->
  0 <= sum_loop bs 0 < 2 ^ 63.
Proof.
  intro Hlen. pose proof (sum_loop_bounds bs).
  assert ((Z.of_nat (length bs) + 1) / 2 <= 1073741824)
    by (apply Z.div_le_upper_bound; lia).
  lia.
Qed.

(** *** Folding *)

Lemma fold_steps_closed (fuel : nat) :
  forall s, 0 < s <= 65535 * 2 ^ Z.of_nat fuel ->
            fold_steps fuel s = 1 + (s - 1) mod 65535.
Proof.
  induction fuel as [|fuel IH]; intros s Hs.
  - change (2 ^ Z.of_nat 0) with 1 in Hs. cbn [fold_steps].
    rewrite Z.mod_small by lia. lia.
  - cbn [fold_steps]. destruct (Z.ltb_spec s 65536) as [Hlt|Hge].
    + rewrite Z.mod_small by lia. lia.
    + rewrite Nat2Z.inj_succ, Z.pow_succ_r in Hs by lia.
      assert (0 <= s mod 65536 < 65536) by (apply Z.mod_pos_bound; lia).
      assert (Hdm : s = 65536 * (s / 65536) + s mod 65536)
        by (apply Z.div_mod; lia).
      assert (0 < 2 ^ Z.of_nat fuel) by (apply Z.pow_pos_nonneg; lia).
      assert (1 <= s / 65536 < 2 * 2 ^ Z.of_nat fuel) by lia.
      rewrite IH by (destruct (Z_lt_dec (s / 65536) (2 ^ Z.of_nat fuel)); lia).
      f_equal.
      replace (s - 1) with (s / 65536 + s mod 65536 - 1 + (s / 65536) * 65535)
        by lia.
      rewrite Z.mod_add by lia. reflexivity.
Qed.

Lemma fold_carries_pos (s : Z) :
  0 < s -> fold_carries s = 1 + (s - 1) mod 65535.
Proof.
  intro Hs. unfold fold_carries. apply fold_steps_closed.
  rewrite Z2Nat.id by apply Z.log2_nonneg.
  pose proof (Z.log2_spec s Hs) as [_ Hup].
  rewrite Z.pow_succ_r in Hup by apply Z.log2_nonneg.
  assert (0 < 2 ^ Z.log2 s) by (apply Z.pow_pos_nonneg; [lia | apply Z.log2_nonneg]).
  lia.
Qed.

Lemma fold_carries_0 : fold_carries 0 = 0.
Proof. reflexivity. Qed.

(** No carry remains after folding. *)
Lemma fold_carries_range (s : Z) : 0 <= s -> 0 <= fold_carries s <= 65535.
Proof.
  intro Hs. destruct (Z.eq_dec s 0) as [->|Hne].
  - rewrite fold_carries_0. lia.
  - rewrite fold_carries_pos by lia.
    pose proof (Z.mod_pos_bound (s - 1) 65535). lia.
Qed.

Lemma shiftr16 (s : Z) : Z.shiftr s 16 = s / 65536.
Proof. rewrite Z.shiftr_div_pow2 by lia. reflexivity. Qed.

Lemma land_ffff (s : Z) : Z.land s 65535 = s mod 65536.
Proof. change 65535 with (Z.ones 16). rewrite Z.land_ones by lia. reflexivity. Qed.

(** The two fixed folds of the routine leave the folded sum in the low
    16 bits as long as the sum is below [2^32]. *)
Lemma fold_twice_low16 (s : Z) :
  0 <= s < 4294967296 -> fold_twice s mod 65536 = fold_carries s.
Proof.
  intro Hs. unfold fold_twice. rewrite !shiftr16, land_ffff.
  assert (0 <= s mod 65536 < 65536) by (apply Z.mod_pos_bound; lia).
  assert (Hdm : s = 65536 * (s / 65536) + s mod 65536)
    by (apply Z.div_mod; lia).
  assert (0 <= s / 65536 < 65536) by lia.
  set (h := s / 65536) in *. set (l := s mod 65536) in *.
  destruct (Z.eq_dec s 0) as [Hz|Hnz].
  - assert (h = 0) by lia. assert (l = 0) by lia.
    rewrite Hz, fold_carries_0. replace (h + l) with 0 by lia. reflexivity.
  - rewrite fold_carries_pos by lia.
    replace (s - 1) with (h + l - 1 + h * 65535) by lia.
    rewrite Z.mod_add by lia.
    destruct (Z_lt_dec (h + l) 65536) as [Hsmall|Hbig].
    + rewrite (Z.div_small (h + l)) by lia.
      rewrite Z.add_0_r, Z.mod_small by lia.
      rewrite Z.mod_small by lia. lia.
    + replace ((h + l) / 65536) with 1
        by (apply Z.div_unique with (r := h + l - 65536); lia).
      replace (h + l + 1) with (h + l + 1 - 65536 + 1 * 65536) by lia.
      rewrite Z.mod_add by lia. rewrite Z.mod_small by lia.
      replace (h + l - 1) with (h + l - 1 - 65535 + 1 * 65535) by lia.
      rewrite Z.mod_add by lia. rewrite Z.mod_small by lia. lia.
Qed.

(** *** Narrowing and complement *)

Lemma narrow_short (z : Z) : to_u16 (to_s16 z) = z mod 65536.
Proof.
  unfold to_u16, to_s16.
  rewrite Zminus_mod_idemp_l.
  replace (z + 32768 - 32768) with z by lia. reflexivity.
Qed.

Lemma lnot_low16 (z : Z) : Z.lnot z mod 65536 = 65535 - z mod 65536.
Proof.
  unfold Z.lnot. rewrite <- Z.sub_1_r.
  assert (0 <= z mod 65536 < 65536) by (apply Z.mod_pos_bound; lia).
  symmetry. apply Z.mod_unique with (q := - (z / 65536) - 1); [lia|].
  pose proof (Z.div_mod z 65536). lia.
Qed.

Lemma checksum_unfold (bs : list byte) :
  checksum bs = 65535 - fold_twice (sum_loop bs 0) mod 65536.
Proof.
  unfold checksum. cbv zeta. rewrite narrow_short. apply lnot_low16.
Qed.

Lemma internet_checksum_unfold (bs : list byte) :
  internet_checksum bs = 65535 - fold_carries (sum_loop bs 0).
Proof.
  unfold internet_checksum, not16.
  rewrite lnot_low16, <- sum_loop_total.
  pose proof (sum_loop_bounds bs) as [Hnn _].
  pose proof (fold_carries_range _ Hnn).
  rewrite Z.mod_small by lia. reflexivity.
Qed.

(** A range of at most 131074 bytes sums to less than [2^32]. *)
Lemma sum_loop_small (bs : list byte) :
  Z.of_nat (length bs) <= 131074 -> 0 <= sum_loop bs 0 < 4294967296.
Proof.
  intro Hlen. pose proof (sum_loop_bounds bs).
  assert ((Z.of_nat (length bs) + 1) / 2 < 65538)
    by (apply Z.div_lt_upper_bound; lia).
  lia.
Qed.

(** *** The routine against the Internet checksum *)

(** C1 (as amended): for every byte range of at most 131074 bytes, the
    routine returns the bitwise NOT, narrowed to 16 bits, of the sum of
    the input read as consecutive 16-bit native-order words with the
    carries above 16 bits folded back into the low 16 bits, the final
    byte of an odd-length input being the low byte of a zero-padded
    word. *)
Theorem checksum_internet_checksum (bs : list byte) :
  Z.of_nat (length bs) <= 131074 ->
  checksum bs = internet_checksum bs.
Proof.
  intro Hlen.
  rewrite checksum_unfold, internet_checksum_unfold.
  rewrite fold_twice_low16 by (apply sum_loop_small; exact Hlen).
  reflexivity.
Qed.

Lemma checksum_internet_checksum_witness :
  Z.of_nat (length [x45; x00; x00; x1c; x30]) <= 131074 /\
  checksum [x45; x00; x00; x1c; x30]
  = internet_checksum [x45; x00; x00; x1c; x30].
Proof.
  split.
  - simpl. lia.
  - apply (checksum_internet_checksum [x45; x00; x00; x1c; x30]).
    simpl. lia.
Defined.

(** C1 as stated fails on a long range: on the 131078 bytes of
    [long_range] the two fixed folds leave a carry unfolded, and the
    routine returns [0xffff] where the folded sum has the complement
    [0xfffe]. *)
Lemma checksum_long_range :
  checksum long_range = 65535 /\
  internet_checksum long_range = 65534 /\
  checksum long_range <> internet_checksum long_range.
Proof.
  assert (H1 : checksum long_range = 65535) by (vm_compute; reflexivity).
  assert (H2 : internet_checksum long_range = 65534)
    by (vm_compute; reflexivity).
  repeat split; try assumption.
  rewrite H1, H2. discriminate.
Qed.

(** *** All-zero input *)

Lemma sum_loop_zeros (n : nat) : sum_loop (repeat x00 n) 0 = 0.
Proof.
  assert (both : sum_loop (repeat x00 n) 0 = 0
                 /\ sum_loop (repeat x00 (S n)) 0 = 0).
  { induction n as [|n [IH1 IH2]]; split;
      [reflexivity | reflexivity | exact IH2 | ].
    change (repeat x00 (S (S n))) with (x00 :: x00 :: repeat x00 n).
    cbn [sum_loop]. exact IH1. }
  apply both.
Qed.

Lemma checksum_zeros (n : nat) : checksum (repeat x00 n) = 65535.
Proof.
  rewrite checksum_unfold, sum_loop_zeros. reflexivity.
Qed.

(** C7: for every even-length all-zero input buffer, the zero-length
    buffer included, the checksum routine returns [0xffff], the one's
    complement of zero. *)
Theorem checksum_all_zero_even (n : nat) :
  checksum (repeat x00 (2 * n)) = 65535.
Proof. apply checksum_zeros. Qed.

(** *** Self-verification *)

(** Replacing the 16-bit word at an even offset changes the sum by the
    difference of the two words. *)
Lemma sum_loop_write_word (c0 c1 d0 d1 : byte) (k : nat) :
  forall buf,
    (2 * k + 2 <= length buf)%nat ->
    sum_loop (write_at (2 * k) [c0; c1] buf) 0 + word16 d0 d1
    = sum_loop (write_at (2 * k) [d0; d1] buf) 0 + word16 c0 c1.
Proof.
  induction k as [|k IH]; intros buf Hlen.
  - destruct buf as [|b0 [|b1 rest]]; simpl in Hlen; try lia.
    change (2 * 0)%nat with O. cbn [write_at]. rewrite !write_at_nil.
    cbn [sum_loop].
    rewrite (sum_loop_acc rest (0 + word16 c0 c1)).
    rewrite (sum_loop_acc rest (0 + word16 d0 d1)). lia.
  - destruct buf as [|b0 [|b1 rest]]; simpl in Hlen; try lia.
    replace (2 * S k)%nat with (S (S (2 * k))) by lia.
    cbn [write_at sum_loop].
    rewrite (sum_loop_acc (write_at _ [c0; c1] rest)).
    rewrite (sum_loop_acc (write_at _ [d0; d1] rest)).
    specialize (IH rest ltac:(lia)). lia.
Qed.

Lemma even_double (n : nat) : Nat.even n = true -> exists k, n = (2 * k)%nat.
Proof.
  intro H. apply Nat.even_spec in H. destruct H as [k Hk]. exists k. exact Hk.
Qed.

(** A positive sum that is a multiple of [0xffff] folds to [0xffff]. *)
Lemma fold_carries_complement (s : Z) :
  0 <= s -> fold_carries (s + (65535 - fold_carries s)) = 65535.
Proof.
  intro Hs. destruct (Z.eq_dec s 0) as [->|Hnz].
  - reflexivity.
  - rewrite (fold_carries_pos s) by lia.
    assert (0 <= (s - 1) mod 65535 < 65535) by (apply Z.mod_pos_bound; lia).
    rewrite fold_carries_pos by lia.
    replace (s + (65535 - (1 + (s - 1) mod 65535)) - 1)
      with (65534 + (s - 1) / 65535 * 65535)
      by (pose proof (Z.div_mod (s - 1) 65535); lia).
    rewrite Z.mod_add by lia. reflexivity.
Qed.

Lemma checksum_range (bs : list byte) : 0 <= checksum bs < 65536.
Proof.
  unfold checksum, to_u16. cbv zeta. apply Z.mod_pos_bound. lia.
Qed.

(** With the checksum filled in, the words of the buffer sum to a
    positive multiple of [0xffff]. *)
Lemma checksum_apply_sum (off : nat) (B : list byte) :
  Nat.even off = true ->
  (off + 2 <= length B)%nat ->
  Z.of_nat (length B) <= 131074 ->
  0 <= sum_loop (checksum_apply off B) 0 < 4294967296
  /\ fold_carries (sum_loop (checksum_apply off B) 0) = 65535.
Proof.
  intros Heven Hin Hlen.
  destruct (even_double off Heven) as [k ->].
  unfold checksum_apply, store16, bytes_of_u16.
  set (zeroed := write_at (2 * k) [to_u8 0; to_u8 (0 / 256)] B).
  set (c := checksum zeroed).
  set (filled := write_at (2 * k) [to_u8 c; to_u8 (c / 256)] B).
  assert (Hlz : length zeroed = length B) by apply length_write_at.
  assert (Hlf : length filled = length B) by apply length_write_at.
  pose proof (sum_loop_small zeroed ltac:(lia)) as Hz.
  pose proof (sum_loop_small filled ltac:(lia)) as Hf.
  assert (Hc : c = 65535 - fold_carries (sum_loop zeroed 0)).
  { unfold c. rewrite checksum_unfold, fold_twice_low16 by exact Hz.
    reflexivity. }
  pose proof (fold_carries_range (sum_loop zeroed 0) ltac:(lia)) as Hfr.
  assert (Hsum : sum_loop filled 0 = sum_loop zeroed 0 + c).
  { pose proof (sum_loop_write_word (to_u8 c) (to_u8 (c / 256))
                  (to_u8 0) (to_u8 (0 / 256)) k B ltac:(lia)) as Hw.
    fold filled zeroed in Hw.
    rewrite !word16_bytes_of_u16 in Hw.
    rewrite (Z.mod_small c) in Hw by lia.
    change (0 mod 65536) with 0 in Hw. lia. }
  split; [exact Hf|].
  rewrite Hsum, Hc. apply fold_carries_complement. lia.
Qed.

(** Adding a sum that folds to [0xffff] (zero, in one's complement) to a
    positive sum does not change what it folds to. *)
Lemma fold_carries_add_zero (a s : Z) :
  0 < a -> 0 <= s -> fold_carries s = 65535 ->
  fold_carries (a + s) = fold_carries a.
Proof.
  intros Ha Hs Hf.
  assert (Hpos : 0 < s) by (destruct (Z.eq_dec s 0) as [->|]; [discriminate Hf | lia]).
  rewrite fold_carries_pos in Hf by exact Hpos.
  rewrite !fold_carries_pos by lia.
  f_equal.
  replace (a + s - 1) with (a - 1 + (1 + (s - 1) / 65535) * 65535)
    by (pose proof (Z.div_mod (s - 1) 65535); lia).
  apply Z.mod_add. lia.
Qed.

Lemma sum_loop_app_even (A I : list byte) :
  Nat.even (length A) = true ->
  sum_loop (A ++ I) 0 = sum_loop A 0 + sum_loop I 0.
Proof.
  induction A as [|b|b0 b1 rest IH] using pair_ind; intro Heven.
  - reflexivity.
  - discriminate Heven.
  - cbn [app sum_loop].
    rewrite (sum_loop_acc (rest ++ I)), (sum_loop_acc rest).
    rewrite IH by exact Heven. lia.
Qed.

(** A range followed by a range whose words sum to zero in one's
    complement has the checksum of the first range alone. *)
Lemma checksum_ignores_verified_tail (A I : list byte) :
  0 < sum_loop A 0 ->
  Nat.even (length A) = true ->
  Z.of_nat (length (A ++ I)) <= 131074 ->
  fold_carries (sum_loop I 0) = 65535 ->
  checksum (A ++ I) = checksum A.
Proof.
  intros Hpos Heven Hlen Hfold.
  assert (HlenA : Z.of_nat (length A) <= 131074)
    by (rewrite length_app in Hlen; lia).
  rewrite !checksum_unfold.
  rewrite !fold_twice_low16 by (apply sum_loop_small; assumption).
  rewrite sum_loop_app_even by exact Heven.
  rewrite fold_carries_add_zero; [reflexivity | exact Hpos | | exact Hfold].
  apply sum_loop_bounds.
Qed.

(** C3 (as amended): for every byte buffer [B] of at most 131074 bytes
    with a 16-bit checksum field at an even offset, writing the
    checksum of [B] with that field zeroed into the field and running
    the routine again over the whole buffer, checksum field included,
    yields 0. *)
Theorem checksum_self_verifies (off : nat) (B : list byte) :
  Nat.even off = true ->
  (off + 2 <= length B)%nat ->
  Z.of_nat (length B) <= 131074 ->
  checksum (checksum_apply off B) = 0.
Proof.
  intros Heven Hin Hlen.
  destruct (checksum_apply_sum off B Heven Hin Hlen) as [Hsmall Hfold].
  rewrite checksum_unfold, fold_twice_low16 by exact Hsmall.
  rewrite Hfold. reflexivity.
Qed.

Lemma checksum_self_verifies_witness :
  Nat.even 2 = true /\
  (2 + 2 <= length [x08; x00; xaa; xbb; x12; x34; x00; x01])%nat /\
  Z.of_nat (length [x08; x00; xaa; xbb; x12; x34; x00; x01]) <= 131074 /\
  checksum (checksum_apply 2 [x08; x00; xaa; xbb; x12; x34; x00; x01]) = 0.
Proof.
  split; [reflexivity|]. split; [simpl; lia|]. split; [simpl; lia|].
  apply (checksum_self_verifies 2 [x08; x00; xaa; xbb; x12; x34; x00; x01]).
  - reflexivity.
  - simpl. lia.
  - simpl. lia.
Defined.

(** C3 as stated fails on a long buffer: with the checksum field at
    offset 0 of the 131080 bytes of [long_buffer], the routine run over
    the filled-in buffer returns [0xffff], not 0. *)
Lemma checksum_self_verify_long_buffer :
  checksum (checksum_apply 0 long_buffer) = 65535 /\
  checksum (checksum_apply 0 long_buffer) <> 0.
Proof.
  assert (H : checksum (checksum_apply 0 long_buffer) = 65535)
    by (vm_compute; reflexivity).
  split; [exact H | rewrite H; discriminate].
Qed.

(** The field has to be one of the 16-bit words that the routine reads:
    a field at an odd offset straddles two words and does not verify. *)
Example unaligned_field_does_not_verify :
  checksum (checksum_apply 1 [x01; x00; x00; x00]) = 255.
Proof. reflexivity. Qed.

End ChecksumFacts.

(** ** The timestamp request *)

Module IcmpTimestampFacts.
Import Mem MemFacts Checksum IcmpTimestamp.

(** The twenty bytes of the header before the checksum is filled in. *)
Lemma set_fields_bytes (packet : list byte) (pid tv_sec tv_usec : Z) :
  length packet = sizeof_icmp_timestamp ->
  set_fields packet pid tv_sec tv_usec
  = [to_u8 13; to_u8 0; to_u8 0; to_u8 (0 / 256)]
    ++ bytes_of_u16 pid ++ bytes_of_u16 1
    ++ bytes_of_u32 (htonl (milliseconds tv_sec tv_usec))
    ++ bytes_of_u32 0 ++ bytes_of_u32 0.
Proof.
  intro Hlen.
  do 21 (destruct packet as [|? packet]; try discriminate Hlen).
  reflexivity.
Qed.

(** The time of day in milliseconds fits 32 bits, so the conversion to
    [uint32_t] loses nothing. *)
Lemma milliseconds_value (tv_sec tv_usec : Z) :
  0 <= tv_sec -> 0 <= tv_usec < 1000000 ->
  milliseconds tv_sec tv_usec = (tv_sec mod 86400) * 1000 + tv_usec / 1000
  /\ 0 <= milliseconds tv_sec tv_usec < 86400000.
Proof.
  intros Hs Hu. unfold milliseconds, to_u32.
  rewrite Z.rem_mod_nonneg, Z.quot_div_nonneg by lia.
  assert (0 <= tv_sec mod 86400 < 86400) by (apply Z.mod_pos_bound; lia).
  assert (0 <= tv_usec / 1000 < 1000)
    by (split; [apply Z.div_pos; lia | apply Z.div_lt_upper_bound; lia]).
  rewrite Z.mod_small by lia. lia.
Qed.

(** C10 (as amended): every encoded ICMP timestamp-request packet has
    type 13, code 0, sequence 1, identifier equal to the calling
    process id reduced modulo 65536 (the 16 bits that the identifier
    field holds), receive and transmit timestamp fields equal to zero,
    and an originate timestamp equal to
    (seconds-since-epoch mod 86400) * 1000 + microseconds / 1000,
    stored in network byte order. *)
Theorem timestamp_request_fields
  (packet : list byte) (pid tv_sec tv_usec : Z) :
  length packet = sizeof_icmp_timestamp ->
  0 <= tv_sec -> 0 <= tv_usec < 1000000 ->
  let p := timestamp_request packet pid tv_sec tv_usec in
  load8 0 p = 13 /\ load8 1 p = 0 /\ load16 6 p = 1
  /\ load16 4 p = pid mod 65536
  /\ load32 12 p = 0 /\ load32 16 p = 0
  /\ be_value (slice 8 4 p) 0
     = (tv_sec mod 86400) * 1000 + tv_usec / 1000.
Proof.
  intros Hlen Hs Hu p. subst p. unfold timestamp_request.
  rewrite (set_fields_bytes _ _ _ _ Hlen).
  set (c := checksum _). clearbody c.
  destruct (milliseconds_value tv_sec tv_usec Hs Hu) as [Hms Hrange].
  set (m := milliseconds tv_sec tv_usec) in *.
  cbv [store16 app write_at bytes_of_u16 bytes_of_u32].
  repeat apply conj.
  - cbv [load8 nth]. rewrite byte_val_to_u8. reflexivity.
  - cbv [load8 nth]. rewrite byte_val_to_u8. reflexivity.
  - cbv [load16 nth]. rewrite word16_bytes_of_u16. reflexivity.
  - cbv [load16 nth]. apply word16_bytes_of_u16.
  - cbv [load32 load16 nth]. rewrite !word16_bytes_of_u16. reflexivity.
  - cbv [load32 load16 nth]. rewrite !word16_bytes_of_u16. reflexivity.
  - cbv [slice skipn firstn]. rewrite <- Hms.
    apply (be_value_htonl m). lia.
Qed.

Lemma timestamp_request_fields_witness :
  let p := timestamp_request (repeat xaa 20) 4321 1700000000 250999 in
  load8 0 p = 13 /\ load8 1 p = 0 /\ load16 6 p = 1
  /\ load16 4 p = 4321 mod 65536
  /\ load32 12 p = 0 /\ load32 16 p = 0
  /\ be_value (slice 8 4 p) 0
     = (1700000000 mod 86400) * 1000 + 250999 / 1000.
Proof.
  apply (timestamp_request_fields (repeat xaa 20) 4321 1700000000 250999).
  - reflexivity.
  - lia.
  - lia.
Defined.

(** C10 as stated fails for a process id that does not fit 16 bits:
    for the process 70000 the identifier field holds 4464. *)
Lemma timestamp_request_large_pid :
  load16 4 (timestamp_request (repeat x00 20) 70000 0 0) = 4464
  /\ load16 4 (timestamp_request (repeat x00 20) 70000 0 0) <> 70000.
Proof.
  assert (H : load16 4 (timestamp_request (repeat x00 20) 70000 0 0) = 4464)
    by (vm_compute; reflexivity).
  split; [exact H | rewrite H; discriminate].
Qed.

End IcmpTimestampFacts.

(** ** The flood datagram *)

Module IcmpFloodFacts.
Import Mem MemFacts Checksum ChecksumSpec ChecksumFacts IcmpFlood.

(** The datagram as configured before the loop. *)
Lemma configure_bytes (target pid : Z) :
  configure target pid
  = [x45; x00; x1c; x00; x30; x39; x00; x00; xff; x01; x00; x00;
     x00; x00; x00; x00]
    ++ bytes_of_u32 target
    ++ [x08; x00; x00; x00] ++ bytes_of_u16 (htons pid) ++ [x00; x00]
    ++ repeat x00 4068.
Proof. reflexivity. Qed.

Lemma length_iteration (r1 r2 : N) (d : list byte) :
  length (iteration r1 r2 d) = length d.
Proof.
  unfold iteration, ip_check_turn, icmp_turn, store16, store32.
  rewrite !length_write_at. reflexivity.
Qed.

Lemma not_assigned (i : nat) :
  assigned_in_loop i = false ->
  (i < 10 \/ 16 <= i < 22 \/ 24 <= i < 26 \/ 28 <= i)%nat.
Proof.
  unfold assigned_in_loop. intro H.
  destruct (Nat.leb_spec 10 i), (Nat.ltb_spec i 16),
    (Nat.leb_spec 22 i), (Nat.ltb_spec i 24),
    (Nat.leb_spec 26 i), (Nat.ltb_spec i 28);
    simpl in H; try discriminate H; lia.
Qed.

(** A turn of the loop writes nowhere else. *)
Lemma iteration_frame (r1 r2 : N) (d : list byte) (i : nat) :
  assigned_in_loop i = false ->
  nth i (iteration r1 r2 d) x00 = nth i d x00.
Proof.
  intro Hi. apply not_assigned in Hi.
  unfold iteration, ip_check_turn, icmp_turn, store16, store32.
  rewrite !nth_write_at_outside by (simpl length; lia).
  reflexivity.
Qed.

Lemma reachable_frame (target pid : Z) (d : list byte) :
  reachable target pid d ->
  forall i, assigned_in_loop i = false ->
            nth i d x00 = nth i (configure target pid) x00.
Proof.
  induction 1 as [| r1 r2 d Hd IH]; intros i Hi.
  - reflexivity.
  - rewrite iteration_frame by exact Hi. apply IH. exact Hi.
Qed.

Lemma length_reachable (target pid : Z) (d : list byte) :
  reachable target pid d -> length d = 4096%nat.
Proof.
  induction 1 as [| r1 r2 d Hd IH].
  - reflexivity.
  - rewrite length_iteration. exact IH.
Qed.

Section Fields.
Variables (target pid : Z) (d : list byte).
Hypothesis Hd : reachable target pid d.

Let c := configure target pid.

Lemma load8_kept (i : nat) :
  assigned_in_loop i = false -> load8 i d = load8 i c.
Proof.
  intro Hi. unfold load8. rewrite (reachable_frame _ _ _ Hd i Hi).
  reflexivity.
Qed.

Lemma load16_kept (i : nat) :
  assigned_in_loop i = false -> assigned_in_loop (S i) = false ->
  load16 i d = load16 i c.
Proof.
  intros Hi HSi. unfold load16.
  rewrite (reachable_frame _ _ _ Hd i Hi),
    (reachable_frame _ _ _ Hd (S i) HSi).
  reflexivity.
Qed.

Lemma load32_kept (i : nat) :
  assigned_in_loop i = false -> assigned_in_loop (S i) = false ->
  assigned_in_loop (S (S i)) = false ->
  assigned_in_loop (S (S (S i))) = false ->
  load32 i d = load32 i c.
Proof.
  intros H0 H1 H2 H3. unfold load32.
  rewrite !load16_kept by assumption. reflexivity.
Qed.
End Fields.

(** C9: across every iteration of the send loop only the IP source
    address, the ICMP echo sequence number and the two checksum fields
    change: every byte of the datagram outside those four fields is the
    byte configured before the loop, and so version (4), IHL (5), TOS
    (0), total length, identification, fragment offset, TTL (255),
    protocol (ICMP), destination address, ICMP type (echo request),
    code (0) and identifier keep their configured values. *)
Theorem loop_keeps_configured_fields (target pid : Z) (d : list byte) :
  reachable target pid d ->
  (forall i, assigned_in_loop i = false ->
             nth i d x00 = nth i (configure target pid) x00)
  /\ ip_version d = 4 /\ ip_ihl d = 5 /\ ip_tos d = 0
  /\ ip_tot_len d = 28
  /\ ip_id d = htons 12345 /\ ip_frag_off d = 0
  /\ ip_ttl d = 255 /\ ip_protocol d = IPPROTO_ICMP
  /\ ip_daddr d = to_u32 target
  /\ icmp_type d = ICMP_ECHO /\ icmp_code d = 0
  /\ icmp_echo_id d = htons pid.
Proof.
  intro Hd.
  unfold ip_version, ip_ihl, ip_tos, ip_tot_len, ip_id, ip_frag_off,
    ip_ttl, ip_protocol, ip_daddr, icmp_type, icmp_code, icmp_echo_id.
  rewrite !(load8_kept _ _ _ Hd) by reflexivity.
  rewrite !(load16_kept _ _ _ Hd) by reflexivity.
  rewrite (load32_kept _ _ _ Hd) by reflexivity.
  split; [apply reachable_frame; exact Hd|].
  rewrite configure_bytes.
  repeat apply conj; try reflexivity.
  - cbv [load32 load16 nth app bytes_of_u32].
    apply load32_bytes_of_u32.
  - cbv [load16 nth app bytes_of_u16 bytes_of_u32].
    rewrite word16_bytes_of_u16. apply Z.mod_small, htons_range.
Qed.

Lemma sample_reachable :
  reachable (inet_addr (10, 0, 0, 1)) 1000 sample_datagram.
Proof. apply turn, configured. Qed.

Lemma loop_keeps_configured_fields_witness :
  reachable (inet_addr (10, 0, 0, 1)) 1000 sample_datagram
  /\ ip_version sample_datagram = 4 /\ ip_ttl sample_datagram = 255
  /\ icmp_echo_id sample_datagram = htons 1000.
Proof.
  split; [exact sample_reachable|].
  pose proof (loop_keeps_configured_fields (inet_addr (10, 0, 0, 1)) 1000
                sample_datagram sample_reachable) as H.
  repeat split; apply H.
Defined.

(** *** The total-length field *)

(** What is handed to [sendto] are the first 28 bytes of the datagram. *)
Lemma sent_first_28 (target pid : Z) (d : list byte) :
  reachable target pid d -> sent d = firstn 28 d.
Proof.
  intro Hd. unfold sent, slice, load16.
  rewrite !(reachable_frame _ _ _ Hd) by reflexivity.
  rewrite configure_bytes. reflexivity.
Qed.

(** C6: the total-length field holds 20 + 8 = 28 as a native 16-bit
    value, so its two bytes in the datagram and in the packet sent are
    [1c 00]; read in network byte order, as the wire defines the field,
    they say 7168.  The neighbouring identification field went through
    [htons] and reads 12345. *)
Theorem tot_len_not_in_network_order (target pid : Z) (d : list byte) :
  reachable target pid d ->
  ip_tot_len d = Z.of_nat sizeof_iphdr + Z.of_nat sizeof_icmphdr
  /\ nth 2 (sent d) x00 = x1c /\ nth 3 (sent d) x00 = x00
  /\ wire16 2 (sent d) = 7168
  /\ wire16 4 (sent d) = 12345.
Proof.
  intro Hd. unfold ip_tot_len, wire16.
  rewrite (sent_first_28 _ _ _ Hd), !nth_firstn. cbn [Nat.ltb Nat.leb].
  rewrite (load16_kept _ _ _ Hd) by reflexivity.
  rewrite !(reachable_frame _ _ _ Hd) by reflexivity.
  rewrite configure_bytes. repeat apply conj; reflexivity.
Qed.

Lemma tot_len_not_in_network_order_witness :
  reachable (inet_addr (10, 0, 0, 1)) 1000 sample_datagram
  /\ wire16 2 (sent sample_datagram) = 7168.
Proof.
  split; [exact sample_reachable|].
  apply (tot_len_not_in_network_order (inet_addr (10, 0, 0, 1)) 1000
           sample_datagram sample_reachable).
Defined.

(** *** The two checksums *)

Lemma ip_csum_nbytes_at_call (target pid : Z) (d : list byte) (r1 r2 : N) :
  reachable target pid d ->
  ip_csum_nbytes (store16 10 0 (icmp_turn r1 r2 d)) = 28%nat.
Proof.
  intro Hd.
  unfold ip_csum_nbytes, load16, icmp_turn, store16, store32.
  rewrite !nth_write_at_outside by (simpl length; lia).
  rewrite !(reachable_frame _ _ _ Hd) by reflexivity.
  rewrite configure_bytes. reflexivity.
Qed.

(** C5: the second [csum] call of a turn is given [iph->tot_len] = 28
    bytes, so the IP checksum is computed over the IP header and the
    ICMP header behind it, not over the 20 bytes of the IP header. *)
Theorem ip_checksum_range (target pid : Z) (d : list byte) (r1 r2 : N) :
  reachable target pid d ->
  let z := store16 10 0 (icmp_turn r1 r2 d) in
  ip_csum_nbytes z = (sizeof_iphdr + sizeof_icmphdr)%nat
  /\ ip_csum_nbytes z <> sizeof_iphdr
  /\ iteration r1 r2 d = store16 10 (csum (slice 0 28 z)) z.
Proof.
  intros Hd z.
  pose proof (ip_csum_nbytes_at_call target pid d r1 r2 Hd) as Hn.
  fold z in Hn.
  repeat apply conj.
  - exact Hn.
  - rewrite Hn. discriminate.
  - unfold iteration, ip_check_turn. fold z. rewrite Hn. reflexivity.
Qed.

Lemma ip_checksum_range_witness :
  reachable (inet_addr (10, 0, 0, 1)) 1000 sample_configured
  /\ ip_csum_nbytes sample_at_ip_csum = 28%nat
  /\ sample_datagram
     = store16 10 (csum (slice 0 28 sample_at_ip_csum)) sample_at_ip_csum.
Proof.
  split; [apply configured|].
  pose proof (ip_checksum_range (inet_addr (10, 0, 0, 1)) 1000
                sample_configured 6%N 7%N (configured _ _)) as H.
  split; apply H.
Defined.

(** What the two checksum fields hold at the end of a turn.  The ICMP
    checksum is the checksum of the 8 bytes of the ICMP header with its
    own field zero.  The IP checksum is the checksum of the 28 bytes of
    the datagram with its own field zero; as the ICMP header behind the
    IP header carries its checksum by then, and so sums to [0xffff], the
    value is also the checksum of the 20 bytes of the IP header. *)
Lemma turn_checksums (target pid : Z) (d : list byte) (r1 r2 : N) :
  reachable target pid d ->
  let d' := iteration r1 r2 d in
  icmp_checksum d' = csum (slice 20 sizeof_icmphdr (store16 22 0 d'))
  /\ ip_check d' = csum (slice 0 28 (store16 10 0 d'))
  /\ ip_check d' = csum (slice 0 sizeof_iphdr (store16 10 0 d')).
Proof.
  intros Hd d'. subst d'.
  unfold iteration, ip_check_turn.
  rewrite (ip_csum_nbytes_at_call _ _ _ _ _ Hd).
  pose proof (length_reachable _ _ _ Hd) as Hlen.
  pose proof (reachable_frame _ _ _ Hd 0%nat eq_refl) as H0.
  rewrite configure_bytes in H0.
  clear Hd.
  do 28 (destruct d as [|? d]; [discriminate Hlen|]).
  cbn [nth app] in H0. subst. clear Hlen.
  unfold icmp_turn.
  set (src := inet_addr _). set (seq := htons _).
  unfold sizeof_icmphdr, sizeof_iphdr, icmp_checksum, ip_check, csum.
  cbv [store16 store32 write_at bytes_of_u16 bytes_of_u32 slice firstn skipn
       load16 nth].
  set (I0 := [_; _; to_u8 0; to_u8 (0 / 256); _; _; to_u8 seq; _]).
  set (c1 := checksum I0).
  match goal with
  | |- context [checksum (?a0 :: ?a1 :: ?a2 :: ?a3 :: ?a4 :: ?a5 :: ?a6
                           :: ?a7 :: ?a8 :: ?a9 :: ?a10 :: ?a11 :: ?a12
                           :: ?a13 :: ?a14 :: ?a15 :: ?a16 :: ?a17 :: ?a18
                           :: ?a19 :: ?i0 :: ?rest)] =>
      set (A := [a0; a1; a2; a3; a4; a5; a6; a7; a8; a9; a10; a11; a12;
                 a13; a14; a15; a16; a17; a18; a19]);
      set (I1 := i0 :: rest)
  end.
  change (checksum (_ :: _)) with (checksum (A ++ I1)).
  rewrite !word16_bytes_of_u16.
  rewrite !Z.mod_small by apply checksum_range.
  repeat apply conj; try reflexivity.
  apply checksum_ignores_verified_tail.
  - unfold A. cbn [sum_loop].
    assert (0 < word16 x45 b0)
      by (pose proof (byte_val_range b0); unfold word16;
          change (byte_val x45) with 69; lia).
    repeat match goal with
           | |- context [word16 ?a ?b] =>
               lazymatch goal with
               | _ : 0 <= word16 a b <= 65535 |- _ => fail
               | _ => pose proof (word16_range a b)
               end
           end.
    lia.
  - reflexivity.
  - simpl. lia.
  - change I1 with (checksum_apply 2 I0).
    apply checksum_apply_sum; [reflexivity | simpl; lia | simpl; lia].
Qed.

End IcmpFloodFacts.

(** ** The dissectors *)

Module CaptureFacts.
Import Mem MemFacts Capture DissectSpec.

Lemma read8_inside (packet : list byte) (off : nat) :
  (off < length packet)%nat ->
  read8 packet off = Returned (load8 off packet).
Proof.
  intro H. unfold read8, load8.
  rewrite (nth_error_nth' packet x00 H). reflexivity.
Qed.

Lemma read8_outside (packet : list byte) (off : nat) :
  (length packet <= off)%nat -> read8 packet off = ReadPast off.
Proof.
  intro H. unfold read8.
  apply nth_error_None in H. rewrite H. reflexivity.
Qed.

Lemma read16_inside (packet : list byte) (off : nat) :
  (S off < length packet)%nat ->
  read16 packet off = Returned (load16 off packet).
Proof.
  intro H. unfold read16.
  rewrite !read8_inside by lia. reflexivity.
Qed.

(** [ntohs] of a native load is the field as the wire defines it. *)
Lemma ntohs_load16 (off : nat) (packet : list byte) :
  ntohs (load16 off packet) = wire16 off packet.
Proof.
  unfold ntohs, htons, to_u16, load16, wire16, word16, be_value.
  pose proof (byte_val_range (nth off packet x00)).
  pose proof (byte_val_range (nth (S off) packet x00)).
  Z.div_mod_to_equations; lia.
Qed.

Lemma header_words_range (packet : list byte) :
  0 <= ip_header_words packet <= 15.
Proof.
  unfold ip_header_words.
  assert (E : Z.land (load8 14 packet) 15 = load8 14 packet mod 16)
    by (change 15 with (Z.ones 4); rewrite Z.land_ones by lia; reflexivity).
  rewrite E.
  pose proof (Z.mod_pos_bound (load8 14 packet) 16 ltac:(lia)). lia.
Qed.

(** The offset of the ICMP header as the handler computes it,
    [sizeof(struct ether_header) + (ip_hl << 2)]. *)
Lemma icmp_offset (packet : list byte) :
  (sizeof_ether_header
   + Z.to_nat (Z.shiftl (Z.land (load8 14 packet) 15) 2))%nat
  = (14 + Z.to_nat (4 * ip_header_words packet))%nat.
Proof.
  unfold sizeof_ether_header, ip_header_words.
  rewrite Z.shiftl_mul_pow2 by lia. f_equal. f_equal. lia.
Qed.

End CaptureFacts.

Module DissectFacts.
Import Mem MemFacts Capture CaptureFacts DissectSpec.

Ltac returned := eexists; reflexivity.

Ltac read_past off :=
  exists off; split; [rewrite read8_outside by lia; reflexivity | lia].

(** Which frames [analyzer.c] reads past, and which it classifies. *)
Lemma analyzer_reads (packet : list byte) :
  if short_for_analyzer packet
  then exists off, Analyzer.dissect packet = ReadPast off
                   /\ (length packet <= off)%nat
  else exists l, Analyzer.dissect packet = Returned l.
Proof.
  unfold short_for_analyzer, Analyzer.dissect. cbv zeta.
  change (sizeof_ether_header + off_ip_p)%nat with 23%nat.
  change off_ether_type with 12%nat.
  destruct (Z.ltb_spec (Z.of_nat (length packet)) 14) as [H14|H14];
    cbn [orb].
  { destruct (Nat.le_gt_cases (length packet) 12) as [H12|H12];
      unfold read16.
    - read_past 12%nat.
    - rewrite (read8_inside packet 12) by lia. cbn [bind].
      read_past 13%nat. }
  rewrite read16_inside by lia. cbn [bind].
  rewrite ntohs_load16. fold (ether_type packet).
  destruct (ether_type packet =? ETHERTYPE_IP); cbn [andb];
    [|destruct (ether_type packet =? ETHERTYPE_ARP); returned].
  destruct (Z.ltb_spec (Z.of_nat (length packet)) 24) as [H24|H24];
    cbn [orb]; [read_past 23%nat|].
  rewrite (read8_inside packet 23) by lia. cbn [bind].
  fold (ip_protocol packet).
  destruct (ip_protocol packet =? IPPROTO_ICMP); cbn [andb];
    [|destruct (ip_protocol packet =? IPPROTO_TCP);
      [|destruct (ip_protocol packet =? IPPROTO_UDP)]; returned].
  rewrite (read8_inside packet sizeof_ether_header)
    by (unfold sizeof_ether_header; lia).
  cbn [bind]. rewrite icmp_offset.
  pose proof (header_words_range packet) as Hw.
  destruct (Z.ltb_spec (Z.of_nat (length packet))
              (15 + 4 * ip_header_words packet)) as [Hs|Hs].
  - read_past (14 + Z.to_nat (4 * ip_header_words packet))%nat.
  - rewrite read8_inside by lia. cbn [bind].
    fold (icmp_type packet).
    destruct (icmp_type packet =? ICMP_ECHO);
      [|destruct (icmp_type packet =? ICMP_ECHOREPLY)]; returned.
Qed.

(** The same for [parser.c]. *)
Lemma parser_reads (packet : list byte) :
  if short_for_parser packet
  then exists off, Parser.dissect packet = ReadPast off
                   /\ (length packet <= off)%nat
  else exists l, Parser.dissect packet = Returned l.
Proof.
  unfold short_for_parser, Parser.dissect. cbv zeta.
  change (sizeof_ether_header + off_ip_p)%nat with 23%nat.
  change off_ether_type with 12%nat.
  destruct (Z.ltb_spec (Z.of_nat (length packet)) 14) as [H14|H14];
    cbn [orb].
  { destruct (Nat.le_gt_cases (length packet) 12) as [H12|H12];
      unfold read16.
    - read_past 12%nat.
    - rewrite (read8_inside packet 12) by lia. cbn [bind].
      read_past 13%nat. }
  rewrite read16_inside by lia. cbn [bind].
  rewrite ntohs_load16. fold (ether_type packet).
  destruct (ether_type packet =? ETHERTYPE_IP); cbn [andb];
    [|destruct (ether_type packet =? ETHERTYPE_ARP); returned].
  destruct (Z.ltb_spec (Z.of_nat (length packet)) 24) as [H24|H24];
    [read_past 23%nat|].
  rewrite (read8_inside packet 23) by lia. cbn [bind].
  destruct (load8 23 packet =? IPPROTO_ICMP);
    [|destruct (load8 23 packet =? IPPROTO_TCP);
      [|destruct (load8 23 packet =? IPPROTO_UDP)]]; returned.
Qed.

(** C2 (as amended): the handlers check no length and report no
    truncation.  On every buffer that is shorter than what they fetch at
    a layer -- all lengths 0 to 13 at layer 2, an IPv4 frame of fewer
    than 24 bytes, and for [analyzer.c] an ICMP frame that ends before
    the type byte at offset 14 + 4 * IHL -- they read a byte at an
    offset past the supplied buffer length; on every other buffer all
    their reads lie inside it and they run to the end. *)
Theorem handlers_check_no_length
  (st : Analyzer.statics) (start_sec : Z) (ts : timeval)
  (packet : list byte) :
  let a := Analyzer.printed (Analyzer.packet_handler st ts packet) in
  let p := Parser.printed (Parser.packet_handler start_sec ts packet) in
  (if short_for_analyzer packet
   then exists off, a = ReadPast off /\ (length packet <= off)%nat
   else exists l, a = Returned l)
  /\
  (if short_for_parser packet
   then exists off, p = ReadPast off /\ (length packet <= off)%nat
   else exists l, p = Returned l).
Proof.
  cbv zeta. cbn [Analyzer.printed Analyzer.packet_handler
                 Parser.printed Parser.packet_handler].
  split; [apply analyzer_reads | apply parser_reads].
Qed.

(** C2 as stated fails on the empty buffer, and on a buffer of 13
    bytes: no truncation is reported, the EtherType is read at offset
    12, respectively 13, past the end of the buffer. *)
Lemma short_frames_are_read_past :
  Analyzer.dissect [] = ReadPast 12
  /\ Parser.dissect [] = ReadPast 12
  /\ (length (@nil byte) <= 12)%nat
  /\ Analyzer.dissect (repeat xff 13) = ReadPast 13
  /\ Parser.dissect (repeat xff 13) = ReadPast 13
  /\ (length (repeat xff 13) <= 13)%nat.
Proof.
  repeat apply conj; try reflexivity; simpl; lia.
Qed.

(** Layer 2 on its own: every buffer of fewer than 14 bytes is read
    past its end, at offset 12 or 13. *)
Lemma short_ethernet_header (packet : list byte) :
  (length packet < 14)%nat ->
  exists off, Analyzer.dissect packet = ReadPast off
              /\ Parser.dissect packet = ReadPast off
              /\ (12 <= off <= 13)%nat /\ (length packet <= off)%nat.
Proof.
  intro H. unfold Analyzer.dissect, Parser.dissect, read16.
  change off_ether_type with 12%nat.
  destruct (Nat.le_gt_cases (length packet) 12) as [H12|H12].
  - exists 12%nat. rewrite !read8_outside by lia.
    repeat split; lia.
  - exists 13%nat. rewrite !(read8_inside packet 12) by lia. cbn [bind].
    rewrite !read8_outside by lia. repeat split; lia.
Qed.

(** C4 (as amended): for every captured frame carrying Ethernet/IPv4
    that the handler classifies, the classification follows the IP
    protocol number (ICMP continues to the ICMP layer, TCP, UDP,
    anything else OtherIP(protocol_number)), and for ICMP the type
    field: 8 -> EchoRequest, 0 -> EchoReply, any other value, 13
    included -> OtherICMP(type_code). *)
Theorem analyzer_dispatch
  (st : Analyzer.statics) (ts : timeval) (packet : list byte)
  (l : Analyzer.line) :
  Analyzer.printed (Analyzer.packet_handler st ts packet) = Returned l ->
  ether_type packet = ETHERTYPE_IP ->
  meaning l
  = Some (if (ip_protocol packet =? IPPROTO_ICMP)
             && (icmp_type packet =? 13)
          then OtherICMP 13
          else dispatch (ip_protocol packet) (icmp_type packet)).
Proof.
  cbn [Analyzer.printed Analyzer.packet_handler].
  intros Hret Hip.
  pose proof (analyzer_reads packet) as Hr.
  unfold short_for_analyzer in Hr. cbv zeta in Hr.
  rewrite Hip, Z.eqb_refl in Hr. cbn [andb] in Hr.
  destruct (Z.ltb_spec (Z.of_nat (length packet)) 14) as [H14|H14];
    cbn [orb] in Hr;
    [destruct Hr as (off & Hoff & _); congruence|].
  destruct (Z.ltb_spec (Z.of_nat (length packet)) 24) as [H24|H24];
    cbn [orb] in Hr;
    [destruct Hr as (off & Hoff & _); congruence|].
  pose proof Hret as Hret'. revert Hret. unfold Analyzer.dissect, dispatch.
  change (sizeof_ether_header + off_ip_p)%nat with 23%nat.
  change off_ether_type with 12%nat.
  rewrite read16_inside by lia. cbn [bind].
  rewrite ntohs_load16. fold (ether_type packet).
  rewrite Hip, Z.eqb_refl.
  rewrite (read8_inside packet 23) by lia. cbn [bind].
  fold (ip_protocol packet).
  destruct (ip_protocol packet =? IPPROTO_ICMP) eqn:Hicmp;
    cbn [andb] in Hr |- *.
  - destruct (Z.ltb_spec (Z.of_nat (length packet))
                (15 + 4 * ip_header_words packet)) as [Hs|Hs];
      [destruct Hr as (off & Hoff & _); rewrite Hoff in Hret';
       discriminate Hret'|].
    pose proof (header_words_range packet) as Hw.
    rewrite (read8_inside packet sizeof_ether_header)
      by (unfold sizeof_ether_header; lia).
    cbn [bind]. rewrite icmp_offset.
    rewrite read8_inside by lia. cbn [bind].
    fold (icmp_type packet). unfold classify_icmp, ICMP_ECHO, ICMP_ECHOREPLY.
    destruct (Z.eqb_spec (icmp_type packet) 8) as [E8|N8].
    + intro Hl. injection Hl as <-. rewrite E8. reflexivity.
    + destruct (Z.eqb_spec (icmp_type packet) 0) as [E0|N0].
      * intro Hl. injection Hl as <-. rewrite E0. reflexivity.
      * intro Hl. injection Hl as <-.
        destruct (Z.eqb_spec (icmp_type packet) 13) as [E13|N13];
          [rewrite E13|]; reflexivity.
  - destruct (ip_protocol packet =? IPPROTO_TCP);
      [|destruct (ip_protocol packet =? IPPROTO_UDP)];
      intro Hl; injection Hl as <-; reflexivity.
Qed.

Lemma analyzer_dispatch_witness :
  Analyzer.printed
    (Analyzer.packet_handler Analyzer.initial
       {| tv_sec := 1700000000; tv_usec := 250 |} timestamp_frame)
  = Returned (Analyzer.ICMP_Type 13)
  /\ ether_type timestamp_frame = ETHERTYPE_IP
  /\ meaning (Analyzer.ICMP_Type 13) = Some (OtherICMP 13).
Proof.
  split; [reflexivity|]. split; [reflexivity|].
  apply (analyzer_dispatch Analyzer.initial
           {| tv_sec := 1700000000; tv_usec := 250 |}
           timestamp_frame (Analyzer.ICMP_Type 13));
    reflexivity.
Defined.

(** C4 as stated fails on a timestamp request: the handler has no case
    for type 13 and prints the line of the other types. *)
Lemma timestamp_request_is_other_icmp :
  ether_type timestamp_frame = ETHERTYPE_IP
  /\ ip_protocol timestamp_frame = IPPROTO_ICMP
  /\ icmp_type timestamp_frame = 13
  /\ Analyzer.dissect timestamp_frame = Returned (Analyzer.ICMP_Type 13)
  /\ dispatch (ip_protocol timestamp_frame) (icmp_type timestamp_frame)
     = TimestampRequest
  /\ meaning (Analyzer.ICMP_Type 13)
     <> Some (dispatch (ip_protocol timestamp_frame)
                (icmp_type timestamp_frame)).
Proof.
  repeat apply conj; try reflexivity.
  discriminate.
Qed.

End DissectFacts.

(** ** The relative-time baseline *)

Module BaselineFacts.
Import Capture Analyzer.

(** Once [start_sec] is not zero the handler leaves the statics alone. *)
Lemma set_baseline_kept (st : statics) (ts : timeval) :
  start_sec st <> 0 -> set_baseline st ts = st.
Proof.
  intro H. unfold set_baseline.
  destruct (Z.eqb_spec (start_sec st) 0); [contradiction | reflexivity].
Qed.

Lemma pcap_loop_kept (frames : list (timeval * list byte)) :
  forall st, start_sec st <> 0 -> pcap_loop st frames = st.
Proof.
  induction frames as [|frame frames IH]; intros st H.
  - reflexivity.
  - unfold pcap_loop in *. cbn [fold_left packet_handler statics_after].
    rewrite set_baseline_kept by exact H. apply IH. exact H.
Qed.

(** The lifecycle holds when the first frame was not captured in the
    first second of the epoch: the first call sets the baseline, no
    later call modifies it. *)
Lemma baseline_set_once (ts : timeval) (packet : list byte)
  (frames : list (timeval * list byte)) :
  tv_sec ts <> 0 ->
  pcap_loop initial ((ts, packet) :: frames)
  = {| start_sec := tv_sec ts; start_usec := tv_usec ts |}.
Proof.
  intro H. unfold pcap_loop. cbn [fold_left].
  apply pcap_loop_kept. exact H.
Qed.

(** C8: a capture whose first frame has the time stamp 0.000500 s and
    whose second frame has 10.000700 s, whatever the two frames hold.
    The first call sets the baseline to (0, 500); as [start_sec] is
    still 0, the second call sets it again, to (10, 700), and reports
    the relative time 0 instead of 10.000200 s.  [parser.c] does the
    same with its [start_sec]. *)
Theorem baseline_modified_by_second_call (frame1 frame2 : list byte) :
  let t1 := {| tv_sec := 0; tv_usec := 500 |} in
  let t2 := {| tv_sec := 10; tv_usec := 700 |} in
  let h1 := packet_handler initial t1 frame1 in
  let h2 := packet_handler (statics_after h1) t2 frame2 in
  statics_after h1 = {| start_sec := 0; start_usec := 500 |}
  /\ statics_after h2 = {| start_sec := 10; start_usec := 700 |}
  /\ statics_after h2 <> statics_after h1
  /\ time_printed h2 = 0
  /\ relative_time (statics_after h1) t2 = 10000200
  /\ (let p1 := Parser.packet_handler 0 t1 frame1 in
      let p2 := Parser.packet_handler (Parser.statics_after p1) t2 frame2 in
      Parser.statics_after p1 = 0
      /\ Parser.statics_after p2 = 10
      /\ Parser.time_printed p2 = 700).
Proof.
  cbv zeta. repeat apply conj; try reflexivity.
  discriminate.
Qed.

End BaselineFacts.

(** ** More on the checksum routine *)

Module ChecksumMore.
Import Mem MemFacts Checksum ChecksumSpec ChecksumFacts.

Lemma sum_loop_odd_padded (bs : list byte) :
  Nat.odd (length bs) = true ->
  forall acc, sum_loop (bs ++ [x00]) acc = sum_loop bs acc.
Proof.
  induction bs as [|b|b0 b1 rest IH] using pair_ind; intros Hodd acc.
  - discriminate Hodd.
  - reflexivity.
  - cbn [app sum_loop]. apply IH. exact Hodd.
Qed.

(** X1: the odd final byte is summed as if a zero byte followed it:
    appending a zero byte to an odd-length range does not change the
    checksum, whatever the length. *)
Theorem checksum_odd_zero_padded (bs : list byte) :
  Nat.odd (length bs) = true ->
  checksum (bs ++ [x00]) = checksum bs.
Proof.
  intro Hodd. unfold checksum. cbv zeta.
  rewrite sum_loop_odd_padded by exact Hodd. reflexivity.
Qed.

Lemma checksum_odd_zero_padded_witness :
  Nat.odd (length [x45; x00; x1c]) = true
  /\ checksum ([x45; x00; x1c] ++ [x00]) = checksum [x45; x00; x1c].
Proof.
  split; [reflexivity|].
  apply (checksum_odd_zero_padded [x45; x00; x1c]). reflexivity.
Defined.

(** X2: for every range whose length fits the [int] parameter [nbytes],
    the [long] accumulator of the summation loop stays between 0 and
    [2^47], far inside the 64 bits of a [long]: the loop never overflows. *)
Theorem accumulator_never_overflows (bs : list byte) :
  Z.of_nat (length bs) <= 2147483647 ->
  0 <= sum_loop bs 0 < 2 ^ 47.
Proof.
  intro Hlen. pose proof (sum_loop_bounds bs).
  assert ((Z.of_nat (length bs) + 1) / 2 <= 1073741824)
    by (apply Z.div_le_upper_bound; lia).
  change (2 ^ 47) with 140737488355328. lia.
Qed.

Lemma accumulator_never_overflows_witness :
  Z.of_nat (length [xff; xff; xff]) <= 2147483647
  /\ 0 <= sum_loop [xff; xff; xff] 0 < 2 ^ 47.
Proof.
  split; [simpl; lia|].
  apply (accumulator_never_overflows [xff; xff; xff]). simpl. lia.
Defined.

Lemma byte_val_zero (b : byte) : byte_val b = 0 -> b = x00.
Proof.
  intro H. rewrite <- (to_u8_byte_val b), H. reflexivity.
Qed.

Lemma sum_loop_zero_iff (bs : list byte) :
  sum_loop bs 0 = 0 <-> Forall (fun b => b = x00) bs.
Proof.
  induction bs as [|b|b0 b1 rest IH] using pair_ind.
  - split; [constructor | reflexivity].
  - cbn [sum_loop]. unfold word16. change (byte_val x00) with 0. split.
    + intro Hz. constructor; [apply byte_val_zero; lia | constructor].
    + intro Hall. inversion Hall; subst. reflexivity.
  - cbn [sum_loop]. rewrite sum_loop_acc.
    pose proof (sum_loop_bounds rest) as [Hnn _].
    pose proof (byte_val_range b0) as Hr0.
    pose proof (byte_val_range b1) as Hr1.
    unfold word16. split.
    + intro Hz.
      constructor; [apply byte_val_zero; lia|].
      constructor; [apply byte_val_zero; lia|].
      apply IH. lia.
    + intro Hall. inversion Hall as [|? ? E0 Hall1]; subst.
      inversion Hall1 as [|? ? E1 Hall2]; subst.
      apply IH in Hall2. rewrite Hall2. reflexivity.
Qed.

(** X3: on a range of at most 131074 bytes the routine returns [0xffff]
    exactly when every byte of the range is zero. *)
Theorem checksum_ffff_iff_all_zero (bs : list byte) :
  Z.of_nat (length bs) <= 131074 ->
  (checksum bs = 65535 <-> Forall (fun b => b = x00) bs).
Proof.
  intro Hlen.
  pose proof (sum_loop_small bs Hlen) as Hs.
  rewrite checksum_unfold, fold_twice_low16 by exact Hs.
  rewrite <- sum_loop_zero_iff.
  destruct (Z.eq_dec (sum_loop bs 0) 0) as [E|N].
  - rewrite E, fold_carries_0. split; reflexivity.
  - rewrite fold_carries_pos by lia.
    pose proof (Z.mod_pos_bound (sum_loop bs 0 - 1) 65535 ltac:(lia)).
    split; intro; lia.
Qed.

Lemma checksum_ffff_iff_all_zero_witness :
  Z.of_nat (length [x00; x00; x00]) <= 131074
  /\ (checksum [x00; x00; x00] = 65535
      <-> Forall (fun b => b = x00) [x00; x00; x00]).
Proof.
  split; [simpl; lia|].
  apply (checksum_ffff_iff_all_zero [x00; x00; x00]). simpl. lia.
Defined.

(** X4: the checksum does not depend on the order of the 16-bit words:
    two ranges of even length can be exchanged. *)
Theorem checksum_parts_commute (A B : list byte) :
  Nat.even (length A) = true -> Nat.even (length B) = true ->
  checksum (A ++ B) = checksum (B ++ A).
Proof.
  intros HA HB. unfold checksum. cbv zeta.
  rewrite (sum_loop_app_even A B HA), (sum_loop_app_even B A HB).
  rewrite Z.add_comm. reflexivity.
Qed.

Lemma checksum_parts_commute_witness :
  Nat.even (length [x45; x00]) = true
  /\ Nat.even (length [x08; x00; x12; x34]) = true
  /\ checksum ([x45; x00] ++ [x08; x00; x12; x34])
     = checksum ([x08; x00; x12; x34] ++ [x45; x00]).
Proof.
  split; [reflexivity|]. split; [reflexivity|].
  apply (checksum_parts_commute [x45; x00] [x08; x00; x12; x34]);
    reflexivity.
Defined.

(** A buffer verifies when its words sum to a positive multiple of
    [0xffff]. *)
Lemma verifies_sum (bs : list byte) :
  Z.of_nat (length bs) <= 131074 ->
  checksum bs = 0 ->
  0 < sum_loop bs 0 /\ (sum_loop bs 0 - 1) mod 65535 = 65534.
Proof.
  intros Hlen H.
  pose proof (sum_loop_small bs Hlen) as Hs.
  rewrite checksum_unfold, fold_twice_low16 in H by exact Hs.
  destruct (Z.eq_dec (sum_loop bs 0) 0) as [E|N].
  - rewrite E, fold_carries_0 in H. discriminate H.
  - rewrite fold_carries_pos in H by lia. lia.
Qed.

(** X5: error detection.  Two buffers of at most 131074 bytes that
    differ in one 16-bit word at an even offset cannot both verify
    (checksum 0), unless the two words are [0x0000] and [0xffff], the
    two forms of zero in one's complement. *)
Theorem one_word_error_detected (X : list byte) (k : nat) (a b : Z) :
  (2 * k + 2 <= length X)%nat ->
  Z.of_nat (length X) <= 131074 ->
  0 <= a < 65536 -> 0 <= b < 65536 -> a <> b ->
  checksum (store16 (2 * k) a X) = 0 ->
  checksum (store16 (2 * k) b X) = 0 ->
  (a = 0 /\ b = 65535) \/ (a = 65535 /\ b = 0).
Proof.
  intros Hin Hlen Ha Hb Hab HA HB.
  unfold store16, bytes_of_u16 in *.
  pose proof (sum_loop_write_word (to_u8 a) (to_u8 (a / 256))
                (to_u8 b) (to_u8 (b / 256)) k X Hin) as Hw.
  rewrite !word16_bytes_of_u16 in Hw.
  rewrite (Z.mod_small a), (Z.mod_small b) in Hw by lia.
  apply verifies_sum in HA; [|rewrite length_write_at; exact Hlen].
  apply verifies_sum in HB; [|rewrite length_write_at; exact Hlen].
  destruct HA as [HA0 HA1]. destruct HB as [HB0 HB1].
  set (sa := sum_loop (write_at (2 * k) [to_u8 a; to_u8 (a / 256)] X) 0) in *.
  set (sb := sum_loop (write_at (2 * k) [to_u8 b; to_u8 (b / 256)] X) 0) in *.
  pose proof (Z.div_mod (sa - 1) 65535 ltac:(lia)).
  pose proof (Z.div_mod (sb - 1) 65535 ltac:(lia)).
  lia.
Qed.

Lemma one_word_error_detected_witness :
  checksum (store16 (2 * 0) 0 [x12; x34; xff; xff]) = 0
  /\ checksum (store16 (2 * 0) 65535 [x12; x34; xff; xff]) = 0
  /\ ((0 = 0 /\ 65535 = 65535) \/ (0 = 65535 /\ 65535 = 0)).
Proof.
  split; [reflexivity|]. split; [reflexivity|].
  apply (one_word_error_detected [x12; x34; xff; xff] 0 0 65535).
  - simpl. lia.
  - simpl. lia.
  - lia.
  - lia.
  - lia.
  - reflexivity.
  - reflexivity.
Defined.

End ChecksumMore.

(** ** More on the two encoders *)

Module EncodeMore.
Import Mem MemFacts Checksum ChecksumSpec ChecksumFacts.
Import IcmpTimestamp IcmpTimestampFacts IcmpFlood IcmpFloodFacts Packets.

(** A filled-in buffer verifies. *)
Lemma applied_verifies (off : nat) (B : list byte) :
  Nat.even off = true ->
  (off + 2 <= length B)%nat ->
  Z.of_nat (length B) <= 131074 ->
  checksum (checksum_apply off B) = 0.
Proof.
  intros Heven Hin Hlen.
  destruct (checksum_apply_sum off B Heven Hin Hlen) as [Hsmall Hfold].
  rewrite checksum_unfold, fold_twice_low16 by exact Hsmall.
  rewrite Hfold. reflexivity.
Qed.

Lemma length_checksum_apply (off : nat) (B : list byte) :
  length (checksum_apply off B) = length B.
Proof. unfold checksum_apply, store16. apply length_write_at. Qed.

Lemma firstn_app_exact {A : Type} (n : nat) (a b : list A) :
  length a = n -> firstn n (a ++ b) = a.
Proof.
  intros <-. rewrite firstn_app, Nat.sub_diag, firstn_all.
  cbn [firstn]. apply app_nil_r.
Qed.

Lemma skipn_app_exact {A : Type} (n : nat) (a b : list A) :
  length a = n -> skipn n (a ++ b) = b.
Proof.
  intros <-. rewrite skipn_app, Nat.sub_diag, skipn_all. reflexivity.
Qed.

(** *** The timestamp request *)

(** X6: the timestamp request that is handed to [sendto] has 20 bytes
    and carries a checksum that verifies: the routine run over the
    whole packet returns 0. *)
Theorem timestamp_request_verifies
  (packet : list byte) (pid tv_sec tv_usec : Z) :
  length packet = sizeof_icmp_timestamp ->
  let p := timestamp_request packet pid tv_sec tv_usec in
  length p = 20%nat /\ checksum p = 0.
Proof.
  intros Hlen p. subst p. unfold timestamp_request.
  rewrite (set_fields_bytes _ _ _ _ Hlen).
  set (m := htonl _).
  cbv [app bytes_of_u16 bytes_of_u32 sizeof_icmp_timestamp slice skipn
       firstn].
  match goal with
  | |- context [store16 2 (checksum ?L) ?L] =>
      change (store16 2 (checksum L) L) with (checksum_apply 2 L)
  end.
  split.
  - rewrite length_checksum_apply. reflexivity.
  - apply applied_verifies; [reflexivity | simpl; lia | simpl; lia].
Qed.

Lemma timestamp_request_verifies_witness :
  length (repeat xaa 20) = sizeof_icmp_timestamp
  /\ checksum (timestamp_request (repeat xaa 20) 4321 1700000000 250999) = 0.
Proof.
  split; [reflexivity|].
  apply (timestamp_request_verifies (repeat xaa 20) 4321 1700000000 250999).
  reflexivity.
Defined.

(** X7: the packet does not depend on what the uninitialised array
    [packet] held: every one of its 20 bytes is assigned before the
    packet is sent. *)
Theorem timestamp_request_ignores_array
  (packet1 packet2 : list byte) (pid tv_sec tv_usec : Z) :
  length packet1 = sizeof_icmp_timestamp ->
  length packet2 = sizeof_icmp_timestamp ->
  timestamp_request packet1 pid tv_sec tv_usec
  = timestamp_request packet2 pid tv_sec tv_usec.
Proof.
  intros H1 H2. unfold timestamp_request.
  rewrite (set_fields_bytes _ _ _ _ H1), (set_fields_bytes _ _ _ _ H2).
  reflexivity.
Qed.

Lemma timestamp_request_ignores_array_witness :
  length (repeat xaa 20) = sizeof_icmp_timestamp
  /\ length (repeat x55 20) = sizeof_icmp_timestamp
  /\ timestamp_request (repeat xaa 20) 4321 1700000000 250999
     = timestamp_request (repeat x55 20) 4321 1700000000 250999.
Proof.
  split; [reflexivity|]. split; [reflexivity|].
  apply (timestamp_request_ignores_array (repeat xaa 20) (repeat x55 20));
    reflexivity.
Defined.

(** *** The flood datagram *)

(** The datagram at the head of the loop: the configured bytes, whatever
    the last turn left in the four fields it assigns, zeros behind. *)
Lemma reachable_shape (target pid : Z) (d : list byte) :
  reachable target pid d ->
  exists b10 b11 b12 b13 b14 b15 b22 b23 b26 b27,
    d = [x45; x00; x1c; x00; x30; x39; x00; x00; xff; x01;
         b10; b11; b12; b13; b14; b15]
        ++ bytes_of_u32 target
        ++ [x08; x00; b22; b23] ++ bytes_of_u16 (htons pid) ++ [b26; b27]
        ++ repeat x00 4068.
Proof.
  induction 1 as [|r1 r2 d Hd IH].
  - rewrite configure_bytes. repeat eexists.
  - unfold iteration, ip_check_turn.
    rewrite (ip_csum_nbytes_at_call _ _ _ _ _ Hd).
    destruct IH as (b10 & b11 & b12 & b13 & b14 & b15 & b22 & b23 & b26
                    & b27 & ->).
    unfold icmp_turn.
    set (src := inet_addr _). set (seq := htons (Z.of_N _)).
    cbv [store16 store32 write_at bytes_of_u16 bytes_of_u32 slice firstn
         skipn app sizeof_icmphdr].
    rewrite !write_at_nil.
    repeat eexists.
Qed.

(** The datagram at the end of a turn, in closed form. *)
Lemma iteration_packet (target pid : Z) (d : list byte) (r1 r2 : N) :
  reachable target pid d ->
  iteration r1 r2 d = echo_packet target pid r1 r2 ++ repeat x00 4068.
Proof.
  intro Hd. unfold iteration, ip_check_turn.
  rewrite (ip_csum_nbytes_at_call _ _ _ _ _ Hd).
  destruct (reachable_shape _ _ _ Hd)
    as (b10 & b11 & b12 & b13 & b14 & b15 & b22 & b23 & b26 & b27 & ->).
  unfold icmp_turn, echo_packet, ip_header, icmp_header, src_of, seq_of,
    checksum_apply, csum.
  set (src := inet_addr _). set (seq := htons (Z.of_N _)).
  cbv [store16 store32 write_at bytes_of_u16 bytes_of_u32 slice firstn
       skipn app sizeof_icmphdr].
  rewrite !write_at_nil.
  set (I0 := [x08; x00; to_u8 0; to_u8 (0 / 256); _; _; to_u8 seq; _]).
  set (c1 := checksum I0).
  match goal with
  | |- context [checksum (?a0 :: ?a1 :: ?a2 :: ?a3 :: ?a4 :: ?a5 :: ?a6
                           :: ?a7 :: ?a8 :: ?a9 :: ?a10 :: ?a11 :: ?a12
                           :: ?a13 :: ?a14 :: ?a15 :: ?a16 :: ?a17 :: ?a18
                           :: ?a19 :: ?i0 :: ?rest)] =>
      change (checksum (a0 :: a1 :: a2 :: a3 :: a4 :: a5 :: a6 :: a7 :: a8
                        :: a9 :: a10 :: a11 :: a12 :: a13 :: a14 :: a15
                        :: a16 :: a17 :: a18 :: a19 :: i0 :: rest))
        with (checksum ([a0; a1; a2; a3; a4; a5; a6; a7; a8; a9; a10; a11;
                         a12; a13; a14; a15; a16; a17; a18; a19]
                        ++ i0 :: rest));
      set (A := [a0; a1; a2; a3; a4; a5; a6; a7; a8; a9; a10; a11; a12;
                 a13; a14; a15; a16; a17; a18; a19]);
      set (I1 := i0 :: rest)
  end.
  assert (E : checksum (A ++ I1) = checksum A).
  { apply checksum_ignores_verified_tail.
    - unfold A. cbn [sum_loop].
      repeat match goal with
             | |- context [word16 ?a ?b] =>
                 lazymatch goal with
                 | _ : 0 <= word16 a b <= 65535 |- _ => fail
                 | _ => pose proof (word16_range a b)
                 end
             end.
      change (word16 x45 x00) with 69 in *. lia.
    - reflexivity.
    - simpl. lia.
    - change I1 with (checksum_apply 2 I0).
      apply checksum_apply_sum; [reflexivity | simpl; lia | simpl; lia]. }
  rewrite E. reflexivity.
Qed.

Lemma length_ip_header (target : Z) (r1 : N) :
  length (checksum_apply 10 (ip_header target r1)) = 20%nat.
Proof. rewrite length_checksum_apply. reflexivity. Qed.

Lemma length_icmp_header (pid : Z) (r2 : N) :
  length (checksum_apply 2 (icmp_header pid r2)) = 8%nat.
Proof. rewrite length_checksum_apply. reflexivity. Qed.

Lemma length_echo_packet (target pid : Z) (r1 r2 : N) :
  length (echo_packet target pid r1 r2) = 28%nat.
Proof.
  unfold echo_packet.
  rewrite length_app, length_ip_header, length_icmp_header. reflexivity.
Qed.

(** What [sendto] is handed at the end of a turn. *)
Lemma sent_packet (target pid : Z) (d : list byte) (r1 r2 : N) :
  reachable target pid d ->
  sent (iteration r1 r2 d) = echo_packet target pid r1 r2.
Proof.
  intro Hd.
  rewrite (sent_first_28 target pid) by (apply turn; exact Hd).
  rewrite (iteration_packet _ _ _ _ _ Hd).
  apply firstn_app_exact, length_echo_packet.
Qed.

(** X8: every packet that the loop hands to [sendto] has 28 bytes, and
    both of its headers verify: the routine run over the 20 bytes of the
    IP header returns 0, and so does the routine run over the 8 bytes of
    the ICMP header. *)
Theorem sent_packet_verifies (target pid : Z) (d : list byte) (r1 r2 : N) :
  reachable target pid d ->
  let pkt := sent (iteration r1 r2 d) in
  length pkt = 28%nat
  /\ checksum (slice 0 sizeof_iphdr pkt) = 0
  /\ checksum (slice sizeof_iphdr sizeof_icmphdr pkt) = 0.
Proof.
  intros Hd pkt. subst pkt. rewrite (sent_packet _ _ _ _ _ Hd).
  unfold slice, sizeof_iphdr, sizeof_icmphdr, echo_packet.
  rewrite skipn_O.
  rewrite (firstn_app_exact 20) by apply length_ip_header.
  rewrite (skipn_app_exact 20) by apply length_ip_header.
  rewrite firstn_all2 by (rewrite length_icmp_header; lia).
  repeat apply conj.
  - apply length_echo_packet.
  - apply applied_verifies; [reflexivity | simpl; lia | simpl; lia].
  - apply applied_verifies; [reflexivity | simpl; lia | simpl; lia].
Qed.

Lemma sent_packet_verifies_witness :
  reachable (inet_addr (10, 0, 0, 1)) 1000 sample_configured
  /\ checksum (slice 0 sizeof_iphdr (sent sample_datagram)) = 0
  /\ checksum (slice sizeof_iphdr sizeof_icmphdr (sent sample_datagram)) = 0.
Proof.
  split; [apply configured|].
  pose proof (sent_packet_verifies (inet_addr (10, 0, 0, 1)) 1000
                sample_configured 6%N 7%N (configured _ _)) as H.
  split; apply H.
Defined.

(** X9: in every packet sent the source address is one of the four
    addresses 10.0.0.3 to 10.0.0.6 (the index [rand() % 4] never leaves
    the table), and the sequence number, read in network byte order, is
    [rand() % 65535], so never [0xffff]. *)
Theorem sent_source_and_sequence
  (target pid : Z) (d : list byte) (r1 r2 : N) :
  reachable target pid d ->
  let pkt := sent (iteration r1 r2 d) in
  In (slice 12 4 pkt)
     [[x0a; x00; x00; x03]; [x0a; x00; x00; x04];
      [x0a; x00; x00; x05]; [x0a; x00; x00; x06]]
  /\ wire16 26 pkt = Z.of_N (r2 mod 65535)
  /\ wire16 26 pkt < 65535.
Proof.
  intros Hd pkt. subst pkt. rewrite (sent_packet _ _ _ _ _ Hd).
  assert (Hseq : 0 <= Z.of_N (r2 mod 65535) < 65535).
  { pose proof (N.mod_upper_bound r2 65535 ltac:(discriminate)) as Hr.
    apply N2Z.inj_lt in Hr.
    pose proof (N2Z.is_nonneg (r2 mod 65535)). lia. }
  assert (Hw : wire16 26 (echo_packet target pid r1 r2)
               = Z.of_N (r2 mod 65535)).
  { change (wire16 26 (echo_packet target pid r1 r2))
      with (be_value (bytes_of_u16 (htons (Z.of_N (r2 mod 65535)))) 0).
    apply be_value_htons. lia. }
  repeat apply conj.
  - change (slice 12 4 (echo_packet target pid r1 r2))
      with (bytes_of_u32 (src_of r1)).
    unfold src_of.
    pose proof (N.mod_upper_bound r1 4 ltac:(discriminate)) as Hr.
    assert (Hn : (N.to_nat (r1 mod 4) < 4)%nat)
      by (apply N2Z.inj_lt in Hr; lia).
    destruct (N.to_nat (r1 mod 4)) as [|[|[|[|n]]]]; [| | | |lia];
      cbn; auto.
  - exact Hw.
  - rewrite Hw. lia.
Qed.

Lemma sent_source_and_sequence_witness :
  reachable (inet_addr (10, 0, 0, 1)) 1000 sample_configured
  /\ wire16 26 (sent sample_datagram) = Z.of_N (7 mod 65535).
Proof.
  split; [apply configured|].
  apply (sent_source_and_sequence (inet_addr (10, 0, 0, 1)) 1000
           sample_configured 6%N 7%N (configured _ _)).
Defined.

(** X10: a turn of the loop leaves nothing of the earlier turns behind:
    the datagram at its end is the one that the same two values of
    [rand()] give on the freshly configured datagram. *)
Theorem turn_forgets_history (target pid : Z) (d : list byte) (r1 r2 : N) :
  reachable target pid d ->
  iteration r1 r2 d = iteration r1 r2 (configure target pid).
Proof.
  intro Hd.
  rewrite (iteration_packet _ _ _ _ _ Hd).
  rewrite (iteration_packet _ _ _ _ _ (configured target pid)).
  reflexivity.
Qed.

Lemma turn_forgets_history_witness :
  reachable (inet_addr (10, 0, 0, 1)) 1000 sample_datagram
  /\ iteration 1 2 sample_datagram = iteration 1 2 sample_configured.
Proof.
  split; [exact sample_reachable|].
  apply (turn_forgets_history (inet_addr (10, 0, 0, 1)) 1000
           sample_datagram 1%N 2%N sample_reachable).
Defined.

End EncodeMore.

(** ** More on the two dissectors *)

Module DissectMore.
Import Mem MemFacts Capture CaptureFacts DissectSpec DissectFacts.
Import Session Packets.

(** On a frame that is long enough for what the handler fetches, the
    line is the one that the header fields select. *)
Lemma analyzer_line (packet : list byte) :
  short_for_analyzer packet = false ->
  Analyzer.dissect packet
  = Returned (analyzer_line_of (ether_type packet) (ip_protocol packet)
                (icmp_type packet)).
Proof.
  unfold short_for_analyzer, Analyzer.dissect, analyzer_line_of. cbv zeta.
  change (sizeof_ether_header + off_ip_p)%nat with 23%nat.
  change off_ether_type with 12%nat.
  destruct (Z.ltb_spec (Z.of_nat (length packet)) 14) as [H14|H14];
    cbn [orb]; [discriminate|].
  rewrite read16_inside by lia. cbn [bind].
  rewrite ntohs_load16. fold (ether_type packet).
  destruct (ether_type packet =? ETHERTYPE_IP); cbn [andb];
    [|intros _; destruct (ether_type packet =? ETHERTYPE_ARP); reflexivity].
  destruct (Z.ltb_spec (Z.of_nat (length packet)) 24) as [H24|H24];
    cbn [orb]; [discriminate|].
  rewrite (read8_inside packet 23) by lia. cbn [bind].
  fold (ip_protocol packet).
  destruct (ip_protocol packet =? IPPROTO_ICMP); cbn [andb];
    [|intros _;
      destruct (ip_protocol packet =? IPPROTO_TCP);
      [|destruct (ip_protocol packet =? IPPROTO_UDP)];
      reflexivity].
  destruct (Z.ltb_spec (Z.of_nat (length packet))
              (15 + 4 * ip_header_words packet)) as [Hs|Hs];
    [discriminate|]. intros _.
  pose proof (header_words_range packet) as Hw.
  rewrite (read8_inside packet sizeof_ether_header)
    by (unfold sizeof_ether_header; lia).
  cbn [bind]. rewrite icmp_offset.
  rewrite read8_inside by lia. cbn [bind].
  fold (icmp_type packet).
  destruct (icmp_type packet =? ICMP_ECHO);
    [|destruct (icmp_type packet =? ICMP_ECHOREPLY)]; reflexivity.
Qed.

Lemma returned_not_short (packet : list byte) (l : Analyzer.line) :
  Analyzer.dissect packet = Returned l -> short_for_analyzer packet = false.
Proof.
  intro H. pose proof (analyzer_reads packet) as Hr.
  destruct (short_for_analyzer packet); [|reflexivity].
  destruct Hr as (off & Hoff & _). congruence.
Qed.

(** X11: whatever the frame holds, the handlers fetch no byte behind
    offset 74 ([analyzer.c]: 14 bytes of Ethernet header, at most 60 of
    IP header, the ICMP type byte), respectively offset 23
    ([parser.c]); a read past the captured bytes is always at an offset
    at or behind their end and within that area. *)
Theorem reads_end_at_74 (packet : list byte) (off : nat) :
  (Analyzer.dissect packet = ReadPast off ->
   (length packet <= off <= 74)%nat)
  /\ (Parser.dissect packet = ReadPast off ->
      (length packet <= off <= 23)%nat).
Proof.
  unfold Analyzer.dissect, Parser.dissect.
  change (sizeof_ether_header + off_ip_p)%nat with 23%nat.
  change off_ether_type with 12%nat.
  destruct (Nat.le_gt_cases (length packet) 12) as [H12|H12].
  { unfold read16. rewrite !read8_outside by lia. cbn [bind].
    split; intro H; injection H as <-; lia. }
  destruct (Nat.le_gt_cases (length packet) 13) as [H13|H13].
  { unfold read16. rewrite !(read8_inside packet 12) by lia. cbn [bind].
    rewrite !read8_outside by lia. cbn [bind].
    split; intro H; injection H as <-; lia. }
  rewrite !read16_inside by lia. cbn [bind].
  destruct (ntohs (load16 12 packet) =? ETHERTYPE_IP);
    [|destruct (ntohs (load16 12 packet) =? ETHERTYPE_ARP);
      split; discriminate].
  destruct (Nat.le_gt_cases (length packet) 23) as [H23|H23].
  { rewrite !read8_outside by lia. cbn [bind].
    split; intro H; injection H as <-; lia. }
  rewrite !(read8_inside packet 23) by lia. cbn [bind].
  split.
  - destruct (load8 23 packet =? IPPROTO_ICMP);
      [|destruct (load8 23 packet =? IPPROTO_TCP);
        [|destruct (load8 23 packet =? IPPROTO_UDP)]; discriminate].
    rewrite (read8_inside packet sizeof_ether_header)
      by (unfold sizeof_ether_header; lia).
    cbn [bind]. rewrite icmp_offset.
    pose proof (header_words_range packet) as Hw.
    set (o := (14 + Z.to_nat (4 * ip_header_words packet))%nat).
    assert (o <= 74)%nat by (unfold o; lia).
    destruct (Nat.le_gt_cases (length packet) o) as [Ho|Ho].
    + rewrite read8_outside by exact Ho. cbn [bind].
      intro H'; injection H' as <-. lia.
    + rewrite read8_inside by exact Ho. cbn [bind].
      destruct (load8 o packet =? ICMP_ECHO);
        [|destruct (load8 o packet =? ICMP_ECHOREPLY)]; discriminate.
  - destruct (load8 23 packet =? IPPROTO_ICMP);
      [|destruct (load8 23 packet =? IPPROTO_TCP);
        [|destruct (load8 23 packet =? IPPROTO_UDP)]]; discriminate.
Qed.

(** An IPv4/ICMP frame of 74 bytes whose IP header claims 15 words. *)
Lemma reads_end_at_74_witness :
  Analyzer.dissect
    (repeat x00 12 ++ [x08; x00; x4f] ++ repeat x00 8 ++ [x01]
     ++ repeat x00 50) = ReadPast 74
  /\ (length (repeat x00 12 ++ [x08; x00; x4f] ++ repeat x00 8 ++ [x01]
              ++ repeat x00 50) <= 74 <= 74)%nat.
Proof.
  split; [reflexivity|].
  apply (reads_end_at_74
           (repeat x00 12 ++ [x08; x00; x4f] ++ repeat x00 8 ++ [x01]
            ++ repeat x00 50) 74).
  reflexivity.
Defined.

(** X12: the two programs agree: on every frame for which [analyzer.c]
    prints a line, [parser.c] reads no byte past the frame either and
    prints the line of the same protocol (all ICMP lines become "ICMP
    Packet Detected"; for other IP protocols and unknown EtherTypes it
    prints nothing). *)
Theorem parser_agrees (packet : list byte) (l : Analyzer.line) :
  Analyzer.dissect packet = Returned l ->
  Parser.dissect packet = Returned (coarse l).
Proof.
  intro H. pose proof (returned_not_short packet l H) as Hs.
  rewrite (analyzer_line packet Hs) in H. injection H as <-.
  revert Hs. unfold short_for_analyzer, Parser.dissect, analyzer_line_of.
  cbv zeta.
  change (sizeof_ether_header + off_ip_p)%nat with 23%nat.
  change off_ether_type with 12%nat.
  destruct (Z.ltb_spec (Z.of_nat (length packet)) 14) as [H14|H14];
    cbn [orb]; [discriminate|].
  rewrite read16_inside by lia. cbn [bind].
  rewrite ntohs_load16. fold (ether_type packet).
  destruct (ether_type packet =? ETHERTYPE_IP); cbn [andb];
    [|intros _; destruct (ether_type packet =? ETHERTYPE_ARP); reflexivity].
  destruct (Z.ltb_spec (Z.of_nat (length packet)) 24) as [H24|H24];
    cbn [orb]; [discriminate|]. intros _.
  rewrite (read8_inside packet 23) by lia. cbn [bind].
  fold (ip_protocol packet).
  destruct (ip_protocol packet =? IPPROTO_ICMP).
  - destruct (icmp_type packet =? ICMP_ECHO);
      [|destruct (icmp_type packet =? ICMP_ECHOREPLY)];
      reflexivity.
  - destruct (ip_protocol packet =? IPPROTO_TCP);
      [|destruct (ip_protocol packet =? IPPROTO_UDP)];
      reflexivity.
Qed.

Lemma parser_agrees_witness :
  Analyzer.dissect timestamp_frame = Returned (Analyzer.ICMP_Type 13)
  /\ Parser.dissect timestamp_frame = Returned Parser.ICMP_Packet_Detected.
Proof.
  split; [reflexivity|].
  apply (parser_agrees timestamp_frame (Analyzer.ICMP_Type 13)).
  reflexivity.
Defined.

(** X13: the line that [analyzer.c] prints is determined by the
    EtherType, the IP protocol byte and the ICMP type byte at the offset
    that the IP header length gives: two frames that agree on these get
    the same line, whatever else they hold. *)
Theorem line_depends_on_header_fields
  (p q : list byte) (l l' : Analyzer.line) :
  Analyzer.dissect p = Returned l ->
  Analyzer.dissect q = Returned l' ->
  ether_type q = ether_type p ->
  ip_protocol q = ip_protocol p ->
  icmp_type q = icmp_type p ->
  l' = l.
Proof.
  intros Hp Hq He Hpr Hty.
  rewrite (analyzer_line p (returned_not_short p l Hp)) in Hp.
  rewrite (analyzer_line q (returned_not_short q l' Hq)) in Hq.
  rewrite He, Hpr, Hty in Hq. congruence.
Qed.

Lemma line_depends_on_header_fields_witness :
  Analyzer.dissect timestamp_frame = Returned (Analyzer.ICMP_Type 13)
  /\ Analyzer.dissect (timestamp_frame ++ [xde; xad])
     = Returned (Analyzer.ICMP_Type 13)
  /\ Analyzer.ICMP_Type 13 = Analyzer.ICMP_Type 13.
Proof.
  split; [reflexivity|]. split; [reflexivity|].
  apply (line_depends_on_header_fields timestamp_frame
           (timestamp_frame ++ [xde; xad])
           (Analyzer.ICMP_Type 13) (Analyzer.ICMP_Type 13));
    reflexivity.
Defined.

(** *** Relative times *)





End DissectMore.

(** ** From the encoders to the dissectors *)

Module RoundTrips.
Import Mem MemFacts Checksum ChecksumSpec ChecksumFacts.
Import IcmpTimestamp IcmpTimestampFacts IcmpFlood IcmpFloodFacts EncodeMore.
Import Session.

(** X15: every packet that the flood loop sends, put behind an Ethernet
    header with EtherType IPv4, is classified by [analyzer.c] as an ICMP
    echo request and by [parser.c] as an ICMP packet; neither reads past
    the frame. *)
Theorem echo_round_trip
  (target pid : Z) (d addresses : list byte) (r1 r2 : N) :
  reachable target pid d -> length addresses = 12%nat ->
  let frame := ethernet_ipv4 addresses (sent (iteration r1 r2 d)) in
  Analyzer.dissect frame = Capture.Returned Analyzer.ICMP_Echo_Request
  /\ Parser.dissect frame = Capture.Returned Parser.ICMP_Packet_Detected.
Proof.
  intros Hd Hlen frame. subst frame.
  rewrite (sent_packet _ _ _ _ _ Hd).
  do 13 (destruct addresses as [|? addresses]; try discriminate Hlen).
  unfold ethernet_ipv4, Packets.echo_packet, Packets.ip_header,
    Packets.icmp_header, checksum_apply.
  cbv [store16 write_at app bytes_of_u16 bytes_of_u32].
  split; reflexivity.
Qed.

Lemma echo_round_trip_witness :
  reachable (inet_addr (10, 0, 0, 1)) 1000 sample_configured
  /\ length (repeat xff 12) = 12%nat
  /\ Analyzer.dissect (ethernet_ipv4 (repeat xff 12) (sent sample_datagram))
     = Capture.Returned Analyzer.ICMP_Echo_Request.
Proof.
  split; [apply configured|]. split; [reflexivity|].
  apply (echo_round_trip (inet_addr (10, 0, 0, 1)) 1000 sample_configured
           (repeat xff 12) 6%N 7%N (configured _ _) eq_refl).
Defined.

(** X16: the timestamp request behind any 20-byte IP header that says
    IHL 5 and protocol ICMP, in an Ethernet frame with EtherType IPv4, is
    printed by [analyzer.c] as "ICMP Type: 13" and by [parser.c] as an
    ICMP packet. *)
Theorem timestamp_round_trip
  (addresses iphdr packet : list byte) (pid tv_sec tv_usec : Z) :
  length addresses = 12%nat ->
  length iphdr = 20%nat ->
  Z.land (load8 0 iphdr) 15 = 5 ->
  load8 9 iphdr = Capture.IPPROTO_ICMP ->
  length packet = sizeof_icmp_timestamp ->
  let frame :=
    ethernet_ipv4 addresses
      (iphdr ++ timestamp_request packet pid tv_sec tv_usec) in
  Analyzer.dissect frame = Capture.Returned (Analyzer.ICMP_Type 13)
  /\ Parser.dissect frame = Capture.Returned Parser.ICMP_Packet_Detected.
Proof.
  intros Ha Hi Hl Hp Hlen frame. subst frame.
  unfold timestamp_request. rewrite (set_fields_bytes _ _ _ _ Hlen).
  set (c := checksum _). clearbody c. set (m := htonl _). clearbody m.
  do 13 (destruct addresses as [|? addresses]; try discriminate Ha).
  do 21 (destruct iphdr as [|? iphdr]; try discriminate Hi).
  cbv [load8 nth] in Hl, Hp.
  unfold ethernet_ipv4.
  cbv [store16 write_at app bytes_of_u16 bytes_of_u32].
  unfold Analyzer.dissect, Parser.dissect, Capture.read16, Capture.read8.
  cbn [nth_error Capture.bind Capture.off_ether_type
       Capture.sizeof_ether_header Capture.off_ip_p Nat.add].
  change (ntohs (byte_val x08 + 256 * byte_val x00) =? Capture.ETHERTYPE_IP)
    with true. cbv iota.
  rewrite Hp. cbn [Z.eqb Capture.IPPROTO_ICMP Pos.eqb]. rewrite Hl.
  split; reflexivity.
Qed.

Lemma timestamp_round_trip_witness :
  Analyzer.dissect
    (ethernet_ipv4 (repeat xff 12)
       ([x45; x00; x00; x28; x00; x00; x00; x00; x40; x01; x00; x00;
         x0a; x00; x00; x01; x0a; x00; x00; x02]
        ++ timestamp_request (repeat xaa 20) 4321 1700000000 250999))
  = Capture.Returned (Analyzer.ICMP_Type 13).
Proof.
  apply (timestamp_round_trip (repeat xff 12)
           [x45; x00; x00; x28; x00; x00; x00; x00; x40; x01; x00; x00;
            x0a; x00; x00; x01; x0a; x00; x00; x02]
           (repeat xaa 20) 4321 1700000000 250999);
    reflexivity.
Defined.

End RoundTrips.
